(** * BetafuncEvtVtxGenerator: beta-function vertex smearing

    A shallow embedding of
    [IOMC/EventVertexGenerators/src/BetafuncEvtVtxGenerator.cc].

    Numbers.  Every [double] of the source is read as a real number, and
    [+], [-], [*], [/], [sqrt], [cos], [sin] and [tan] as the exact
    operations of [R].  Rounding, overflow, infinities and NaN are outside
    this model; the theorems below are statements about the arithmetic the
    source writes down, not about its binary64 evaluation. *)

From Stdlib Require Import Reals Lra Bool Arith Lia List String.

Open Scope R_scope.

(** ** ROOT: the part of [TMatrixD] the generator uses *)

Module TMatrix.

(** A 4x4 matrix of doubles, stored by rows.  The generator only ever
    builds [TMatrixD(4, 4)], so the shape is fixed in the type. *)
Record Row : Type := mkRow { c0 : R; c1 : R; c2 : R; c3 : R }.
Record TMatrixD : Type := mkM { r0 : Row; r1 : Row; r2 : Row; r3 : Row }.

Definition row_get (r : Row) (j : nat) : R :=
  match j with
  | 0%nat => c0 r | 1%nat => c1 r | 2%nat => c2 r | 3%nat => c3 r
  | _ => 0
  end.

Definition row_set (r : Row) (j : nat) (v : R) : Row :=
  match j with
  | 0%nat => mkRow v (c1 r) (c2 r) (c3 r)
  | 1%nat => mkRow (c0 r) v (c2 r) (c3 r)
  | 2%nat => mkRow (c0 r) (c1 r) v (c3 r)
  | 3%nat => mkRow (c0 r) (c1 r) (c2 r) v
  | _ => r
  end.

Definition row_of (m : TMatrixD) (i : nat) : Row :=
  match i with
  | 0%nat => r0 m | 1%nat => r1 m | 2%nat => r2 m | 3%nat => r3 m
  | _ => mkRow 0 0 0 0
  end.

(** [m(i, j)] read as an rvalue. *)
Definition mget (m : TMatrixD) (i j : nat) : R := row_get (row_of m i) j.

(** [m(i, j) = v].  ROOT rejects an index outside the shape; the
    generator never produces one, and the model leaves [m] alone there. *)
Definition mset (i j : nat) (v : R) (m : TMatrixD) : TMatrixD :=
  match i with
  | 0%nat => mkM (row_set (r0 m) j v) (r1 m) (r2 m) (r3 m)
  | 1%nat => mkM (r0 m) (row_set (r1 m) j v) (r2 m) (r3 m)
  | 2%nat => mkM (r0 m) (r1 m) (row_set (r2 m) j v) (r3 m)
  | 3%nat => mkM (r0 m) (r1 m) (r2 m) (row_set (r3 m) j v)
  | _ => m
  end.

(** The matrix whose entry at [(i, j)] is [f i j]. *)
Definition build (f : nat -> nat -> R) : TMatrixD :=
  mkM (mkRow (f 0 0) (f 0 1) (f 0 2) (f 0 3))%nat
      (mkRow (f 1 0) (f 1 1) (f 1 2) (f 1 3))%nat
      (mkRow (f 2 0) (f 2 1) (f 2 2) (f 2 3))%nat
      (mkRow (f 3 0) (f 3 1) (f 3 2) (f 3 3))%nat.

(** [TMatrixD(4, 4)]: the constructor zero-fills. *)
Definition zero : TMatrixD := build (fun _ _ => 0).

Definition identity : TMatrixD :=
  build (fun i j => if Nat.eqb i j then 1 else 0).

Definition mmul (a b : TMatrixD) : TMatrixD :=
  build (fun i j =>
           mget a i 0 * mget b 0 j + mget a i 1 * mget b 1 j
           + mget a i 2 * mget b 2 j + mget a i 3 * mget b 3 j).

(** *** Inversion

    [TMatrixD::Invert] inverts in place by LU decomposition.  In exact
    arithmetic the result is the inverse, which is written here in closed
    form: the transposed cofactor matrix over the determinant.  ROOT
    reports an error on a singular matrix; nothing below depends on the
    value of [Invert] there. *)

Definition det3 (a b c d e f g h i : R) : R :=
  a * (e * i - f * h) - b * (d * i - f * g) + c * (d * h - e * g).

(** The three entries of a row left after column [j] is struck out. *)
Definition strike (j : nat) (r : Row) : R * R * R :=
  match j with
  | 0%nat => (c1 r, c2 r, c3 r)
  | 1%nat => (c0 r, c2 r, c3 r)
  | 2%nat => (c0 r, c1 r, c3 r)
  | _ => (c0 r, c1 r, c2 r)
  end.

(** The three rows left after row [i] is struck out. *)
Definition strike_row (i : nat) (m : TMatrixD) : Row * Row * Row :=
  match i with
  | 0%nat => (r1 m, r2 m, r3 m)
  | 1%nat => (r0 m, r2 m, r3 m)
  | 2%nat => (r0 m, r1 m, r3 m)
  | _ => (r0 m, r1 m, r2 m)
  end.

Definition minor (m : TMatrixD) (i j : nat) : R :=
  let '(ra, rb, rc) := strike_row i m in
  let '(a, b, c) := strike j ra in
  let '(d, e, f) := strike j rb in
  let '(g, h, k) := strike j rc in
  det3 a b c d e f g h k.

Definition cofactor (m : TMatrixD) (i j : nat) : R :=
  (if Nat.even (i + j) then 1 else -1) * minor m i j.

Definition det (m : TMatrixD) : R :=
  mget m 0 0 * cofactor m 0 0 + mget m 0 1 * cofactor m 0 1
  + mget m 0 2 * cofactor m 0 2 + mget m 0 3 * cofactor m 0 3.

Definition Invert (m : TMatrixD) : TMatrixD :=
  build (fun i j => cofactor m j i / det m).

End TMatrix.

Import TMatrix.

(** ** Exceptions and the monad of member functions *)

Module cms.
(** Modelled from the spec: [cms::Exception] (its class is not among the
    sources): an error kind and a text, built in the source as
    [cms::Exception(category) << message]. *)
Record Exception : Type :=
  mkException { category : string; message : string }.
End cms.

(** How a call ends: it returns a value or it throws. *)
Inductive Res (A : Type) : Type :=
| Ok (a : A)
| Throw (e : cms.Exception).
Arguments Ok {A} a.
Arguments Throw {A} e.

(** A member function that works on an object of type [S]: from the object
    before the call to the way the call ends and the object after it.  An
    exception does not undo the assignments made before it. *)
Definition M (S A : Type) : Type := S -> Res A * S.

Definition ret {S A : Type} (a : A) : M S A := fun s => (Ok a, s).

Definition bind {S A B : Type} (m : M S A) (k : A -> M S B) : M S B :=
  fun s =>
    match m s with
    | (Ok a, s') => k a s'
    | (Throw e, s') => (Throw e, s')
    end.

Definition throw {S A : Type} (e : cms.Exception) : M S A :=
  fun s => (Throw e, s).

(** Read a member. *)
Definition gets {S A : Type} (f : S -> A) : M S A := fun s => (Ok (f s), s).

(** Assign to a member through its setter. *)
Definition assign {S V : Type} (set : S -> V -> S) (v : V) : M S unit :=
  fun s => (Ok tt, set s v).

Declare Scope cxx_scope.
Delimit Scope cxx_scope with cxx.
Notation "x <- m ;; k" := (bind m (fun x => k))
  (at level 61, m at next level, right associativity) : cxx_scope.
Notation "m ;; k" := (bind m (fun _ => k))
  (at level 61, right associativity) : cxx_scope.

(** ** CLHEP: units, constants and the Gaussian generator *)

Module CLHEP.

(** [CLHEP/Units/SystemOfUnits.h] and [GlobalPhysicalConstants.h]: the
    basic units are the millimetre, the nanosecond and the radian. *)
Definition millimeter : R := 1.
Definition centimeter : R := 10 * millimeter.
Definition meter : R := 1000 * millimeter.
Definition nanosecond : R := 1.
Definition second : R := 1e9 * nanosecond.
Definition radian : R := 1.
Definition cm : R := centimeter.
Definition ns : R := nanosecond.
Definition c_light : R := 2.99792458e8 * meter / second.

(** [HepRandomEngine]: an externally owned stream of variates.  [draws]
    is the sequence of standard normal variates the engine will hand to
    [RandGaussQ], [consumed] the number already handed out. *)
Record HepRandomEngine : Type :=
  mkEngine { draws : nat -> R; consumed : nat }.

Definition advance (n : nat) (e : HepRandomEngine) : HepRandomEngine :=
  mkEngine (draws e) (consumed e + n).

Module RandGaussQ.
(** [RandGaussQ::shoot(engine, mean, stdDev)]: one standard normal
    variate from the engine, scaled and shifted. *)
Definition shoot (mean stdDev : R) : M HepRandomEngine R :=
  fun engine =>
    (Ok (draws engine (consumed engine) * stdDev + mean),
     advance 1 engine).
End RandGaussQ.

End CLHEP.

(** ** ROOT: [ROOT::Math::XYZTVector] *)

Module XYZTVector.
Record t : Type := XYZTVector { X : R; Y : R; Z : R; T : R }.
End XYZTVector.

(** ** Framework inputs *)

Module edm.

(** Modelled from the spec: [edm::ParameterSet] (its class is not among
    the sources), the key-value configuration input, cut down to the
    options the constructor reads and [fillDescriptions] declares; each is
    present once the set has been validated against that description. *)
Record ParameterSet : Type := mkParameterSet {
  readDB : bool;
  X0 : R; Y0 : R; Z0 : R;
  SigmaZ : R;
  BetaStar : R;
  Emittance : R;
  Alpha : R; Phi : R;
  TimeOffset : R
}.

End edm.

(** Modelled from the spec: [SimBeamSpotObjects], the beam-spot record of
    the dynamic source (its class is not in the source file).  The spec
    gives it accessors equivalent to the configuration fields and a flag
    telling a Gaussian profile from a beta-function profile. *)
Module SimBeamSpotObjects.
Record t : Type := mk {
  isGaussian : bool;
  x : R; y : R; z : R;
  sigmaZ : R;
  betaStar : R;
  emittance : R;
  alpha : R; phi : R;
  timeOffset : R
}.
End SimBeamSpotObjects.

(** Modelled from the spec: the [edm::EventSetup] as far as [update] looks
    at it: the validity key of the beam-spot record and the record. *)
Record EventSetup : Type := mkEventSetup {
  cacheIdentifier : nat;
  getHandle : SimBeamSpotObjects.t
}.

(** Modelled from the spec: [edm::ESWatcher], the guarded-update pattern of
    the design notes: it holds the validity key it last saw, and [check]
    reports a change and remembers the new key. *)
Module ESWatcher.
Record t : Type := mk { cacheId_ : nat }.

Definition init : t := mk 0.

Definition check (iSetup : EventSetup) : M t bool :=
  fun w =>
    let result := negb (Nat.eqb (cacheId_ w) (cacheIdentifier iSetup)) in
    (Ok result, if result then mk (cacheIdentifier iSetup) else w).
End ESWatcher.

(** ** The generator *)

Import CLHEP.

(** Modelled from the spec: the class declaration (the header is not among
    the sources).  The members are the ones the source file reads and
    writes: the mode flag, the beam-spot parameters, the stored boost
    matrix and the watcher of the dynamic source. *)
Record BetafuncEvtVtxGenerator : Type := mkGenerator {
  readDB_ : bool;
  fX0 : R; fY0 : R; fZ0 : R;
  fSigmaZ : R;
  fbetastar : R; femittance : R;
  fTimeOffset : R;
  boost_ : TMatrixD;
  parameterWatcher_ : ESWatcher.t
}.

Section Setters.
Variable g : BetafuncEvtVtxGenerator.

Definition set_readDB_ (v : bool) : BetafuncEvtVtxGenerator :=
  mkGenerator v (fX0 g) (fY0 g) (fZ0 g) (fSigmaZ g) (fbetastar g)
              (femittance g) (fTimeOffset g) (boost_ g)
              (parameterWatcher_ g).
Definition set_fX0 (v : R) : BetafuncEvtVtxGenerator :=
  mkGenerator (readDB_ g) v (fY0 g) (fZ0 g) (fSigmaZ g) (fbetastar g)
              (femittance g) (fTimeOffset g) (boost_ g)
              (parameterWatcher_ g).
Definition set_fY0 (v : R) : BetafuncEvtVtxGenerator :=
  mkGenerator (readDB_ g) (fX0 g) v (fZ0 g) (fSigmaZ g) (fbetastar g)
              (femittance g) (fTimeOffset g) (boost_ g)
              (parameterWatcher_ g).
Definition set_fZ0 (v : R) : BetafuncEvtVtxGenerator :=
  mkGenerator (readDB_ g) (fX0 g) (fY0 g) v (fSigmaZ g) (fbetastar g)
              (femittance g) (fTimeOffset g) (boost_ g)
              (parameterWatcher_ g).
Definition set_fSigmaZ (v : R) : BetafuncEvtVtxGenerator :=
  mkGenerator (readDB_ g) (fX0 g) (fY0 g) (fZ0 g) v (fbetastar g)
              (femittance g) (fTimeOffset g) (boost_ g)
              (parameterWatcher_ g).
Definition set_fbetastar (v : R) : BetafuncEvtVtxGenerator :=
  mkGenerator (readDB_ g) (fX0 g) (fY0 g) (fZ0 g) (fSigmaZ g) v
              (femittance g) (fTimeOffset g) (boost_ g)
              (parameterWatcher_ g).
Definition set_femittance (v : R) : BetafuncEvtVtxGenerator :=
  mkGenerator (readDB_ g) (fX0 g) (fY0 g) (fZ0 g) (fSigmaZ g)
              (fbetastar g) v (fTimeOffset g) (boost_ g)
              (parameterWatcher_ g).
Definition set_fTimeOffset (v : R) : BetafuncEvtVtxGenerator :=
  mkGenerator (readDB_ g) (fX0 g) (fY0 g) (fZ0 g) (fSigmaZ g)
              (fbetastar g) (femittance g) v (boost_ g)
              (parameterWatcher_ g).
Definition set_boost_ (v : TMatrixD) : BetafuncEvtVtxGenerator :=
  mkGenerator (readDB_ g) (fX0 g) (fY0 g) (fZ0 g) (fSigmaZ g)
              (fbetastar g) (femittance g) (fTimeOffset g) v
              (parameterWatcher_ g).
Definition set_parameterWatcher_ (v : ESWatcher.t)
  : BetafuncEvtVtxGenerator :=
  mkGenerator (readDB_ g) (fX0 g) (fY0 g) (fZ0 g) (fSigmaZ g)
              (fbetastar g) (femittance g) (fTimeOffset g) (boost_ g) v.
End Setters.


Open Scope cxx_scope.
Open Scope string_scope.

(** [BetaFunction(z, z0)]: the single-beam width at [z]. *)
Definition BetaFunction (g : BetafuncEvtVtxGenerator) (z z0 : R) : R :=
  sqrt (femittance g * (fbetastar g + (((z - z0) * (z - z0)) / fbetastar g))).

(** The matrix [setBoost] fills in before it inverts: a zero-filled
    [TMatrixD tmpboost(4, 4)] and the sixteen assignments, in the order of
    the source. *)
Definition tmpboost (alpha phi : R) : TMatrixD :=
  mset 3 3 1
  (mset 3 2 (sin alpha * tan phi)
  (mset 3 1 0
  (mset 3 0 (- sin alpha * tan phi)
  (mset 2 3 (- sin alpha * sin phi)
  (mset 2 2 (cos phi)
  (mset 2 1 (- cos alpha * sin phi)
  (mset 2 0 0
  (mset 1 3 0
  (mset 1 2 (cos alpha * tan phi)
  (mset 1 1 1
  (mset 1 0 (- cos alpha * tan phi)
  (mset 0 3 (- sin alpha * sin phi)
  (mset 0 2 (- tan phi * sin phi)
  (mset 0 1 (- cos alpha * sin phi)
  (mset 0 0 (1 / cos phi)
  TMatrix.zero))))))))))))))).

(** [setBoost(alpha, phi)]: [tmpboost.Invert(); boost_ = tmpboost;]. *)
Definition setBoost (alpha phi : R) : M BetafuncEvtVtxGenerator unit :=
  assign set_boost_ (Invert (tmpboost alpha phi)).

(** The body of the constructor, run on the object after its member
    initialisers. *)
Definition constructor_body (p : edm.ParameterSet)
  : M BetafuncEvtVtxGenerator unit :=
  assign set_readDB_ (edm.readDB p) ;;
  rdb <- gets readDB_ ;;
  if negb rdb then
    assign set_fX0 (edm.X0 p * cm) ;;
    assign set_fY0 (edm.Y0 p * cm) ;;
    assign set_fZ0 (edm.Z0 p * cm) ;;
    assign set_fSigmaZ (edm.SigmaZ p * cm) ;;
    assign set_fbetastar (edm.BetaStar p * cm) ;;
    assign set_femittance (edm.Emittance p * cm) ;;
    assign set_fTimeOffset (edm.TimeOffset p * ns * c_light) ;;
    setBoost (edm.Alpha p * radian) (edm.Phi p * radian) ;;
    sz <- gets fSigmaZ ;;
    if Rle_dec sz 0 then
      throw (cms.mkException "Configuration"
               "Error in BetafuncEvtVtxGenerator: Illegal resolution in Z (SigmaZ is negative)")
    else ret tt
  else
    (* readDB_: only the token is registered *)
    ret tt.

(** [BetafuncEvtVtxGenerator(p)].  [raw] is the storage the object is
    built in: the [double] members have no initialiser and keep whatever
    it holds until they are assigned; [boost_(4, 4)] is zero-filled and the
    watcher is default-constructed.  A constructor that throws leaves no
    object behind. *)
Definition constructor (raw : BetafuncEvtVtxGenerator) (p : edm.ParameterSet)
  : Res BetafuncEvtVtxGenerator :=
  let g0 := set_parameterWatcher_ (set_boost_ raw TMatrix.zero) ESWatcher.init in
  match constructor_body p g0 with
  | (Ok _, g) => Ok g
  | (Throw e, _) => Throw e
  end.

(** [parameterWatcher_.check(iEventSetup)] on the watcher member. *)
Definition parameterWatcher_check (iEventSetup : EventSetup)
  : M BetafuncEvtVtxGenerator bool :=
  fun g =>
    let '(r, w) := ESWatcher.check iEventSetup (parameterWatcher_ g) in
    (r, set_parameterWatcher_ g w).

(** [update(iEventSetup)].  [&&] evaluates the watcher only when [readDB_]
    holds. *)
Definition update (iEventSetup : EventSetup)
  : M BetafuncEvtVtxGenerator unit :=
  rdb <- gets readDB_ ;;
  changed <- (if rdb then parameterWatcher_check iEventSetup else ret false) ;;
  if changed then
    let beamhandle := getHandle iEventSetup in
    if negb (SimBeamSpotObjects.isGaussian beamhandle) then
      assign set_fX0 (SimBeamSpotObjects.x beamhandle * cm) ;;
      assign set_fY0 (SimBeamSpotObjects.y beamhandle * cm) ;;
      assign set_fZ0 (SimBeamSpotObjects.z beamhandle * cm) ;;
      assign set_fSigmaZ (SimBeamSpotObjects.sigmaZ beamhandle * cm) ;;
      assign set_fTimeOffset
             (SimBeamSpotObjects.timeOffset beamhandle * ns * c_light) ;;
      assign set_fbetastar (SimBeamSpotObjects.betaStar beamhandle * cm) ;;
      assign set_femittance (SimBeamSpotObjects.emittance beamhandle * cm) ;;
      setBoost (SimBeamSpotObjects.alpha beamhandle * radian)
               (SimBeamSpotObjects.phi beamhandle * radian)
    else
      throw (cms.mkException "Configuration"
               "Error in BetafuncEvtVtxGenerator::update: The provided SimBeamSpotObjects is Gaussian.
Please check the configuration and ensure that the beam spot parameters are appropriate for a Betafunc distribution.")
  else ret tt.

(** [beginLuminosityBlock(lumi, iEventSetup)]. *)
Definition beginLuminosityBlock (iEventSetup : EventSetup)
  : M BetafuncEvtVtxGenerator unit :=
  update iEventSetup.

(** [vertexShift(engine)]: a [const] member; the object it works on is the
    engine. *)
Definition vertexShift (g : BetafuncEvtVtxGenerator)
  : M HepRandomEngine XYZTVector.t :=
  tmp_sigz <- RandGaussQ.shoot 0 (fSigmaZ g) ;;
  let Z := tmp_sigz + fZ0 g in
  let tmp_sigx := BetaFunction g Z (fZ0 g) in
  (* need sqrt(2) for beamspot width relative to single beam width *)
  let tmp_sigx := tmp_sigx / sqrt 2 in
  shot <- RandGaussQ.shoot 0 tmp_sigx ;;
  let X := shot + fX0 g in
  let tmp_sigy := BetaFunction g Z (fZ0 g) in
  let tmp_sigy := tmp_sigy / sqrt 2 in
  shot <- RandGaussQ.shoot 0 tmp_sigy ;;
  let Y := shot + fY0 g in
  tmp_sigt <- RandGaussQ.shoot 0 (fSigmaZ g) ;;
  let T := tmp_sigt + fTimeOffset g in
  ret (XYZTVector.XYZTVector X Y Z T).

(** [sigmaZ(s)]: the setter of the longitudinal width. *)
Definition sigmaZ (s : R) : M BetafuncEvtVtxGenerator unit :=
  if Rge_dec s 0 then
    assign set_fSigmaZ s
  else
    throw (cms.mkException "LogicError"
             "Error in BetafuncEvtVtxGenerator::sigmaZ: Illegal resolution in Z (negative)").

Arguments tmpboost : simpl never.
Arguments Invert : simpl never.

(** [GetInvLorentzBoost()]: the stored matrix, read-only. *)
Definition GetInvLorentzBoost (g : BetafuncEvtVtxGenerator) : TMatrixD :=
  boost_ g.

(** ** The specification's vocabulary *)

(** The width function in the words of the specification:
    [sigma = sqrt(emittance * (betaStar + (z - z0)^2 / betaStar))]. *)
Definition widthAt (z z0 betaStar emittance : R) : R :=
  sqrt (emittance * (betaStar + (z - z0) ^ 2 / betaStar)).

(** The call threw an exception of the given category. *)
Definition throws {A : Type} (r : Res A) (cat : string) : Prop :=
  match r with
  | Throw e => cms.category e = cat
  | Ok _ => False
  end.

(** The call returned. *)
Definition returns {A : Type} (r : Res A) : Prop :=
  match r with
  | Ok _ => True
  | Throw _ => False
  end.

(** The beam-spot parameters held by the generator:
    [(x0, y0, z0, sigmaZ, betaStar, emittance, timeOffset)]. *)
Definition parameters (g : BetafuncEvtVtxGenerator)
  : R * R * R * R * R * R * R :=
  (fX0 g, fY0 g, fZ0 g, fSigmaZ g, fbetastar g, femittance g, fTimeOffset g).

(** A four-vector, as the one-column matrix ROOT multiplies the boost
    with: component 0 is the time-like one. *)
Definition mapply (m : TMatrixD) (v : Row) : Row :=
  mkRow (mget m 0 0 * c0 v + mget m 0 1 * c1 v
         + mget m 0 2 * c2 v + mget m 0 3 * c3 v)
        (mget m 1 0 * c0 v + mget m 1 1 * c1 v
         + mget m 1 2 * c2 v + mget m 1 3 * c3 v)
        (mget m 2 0 * c0 v + mget m 2 1 * c1 v
         + mget m 2 2 * c2 v + mget m 2 3 * c3 v)
        (mget m 3 0 * c0 v + mget m 3 1 * c1 v
         + mget m 3 2 * c2 v + mget m 3 3 * c3 v).

(** The Minkowski interval of a four-vector. *)
Definition interval (v : Row) : R :=
  c0 v * c0 v - c1 v * c1 v - c2 v * c2 v - c3 v * c3 v.

(** The calls a client can make on a generator that change it. *)
Inductive Call : Type :=
| Call_beginLuminosityBlock (iEventSetup : EventSetup)
| Call_update (iEventSetup : EventSetup)
| Call_sigmaZ (s : R).

Definition call (c : Call) : M BetafuncEvtVtxGenerator unit :=
  match c with
  | Call_beginLuminosityBlock iEventSetup => beginLuminosityBlock iEventSetup
  | Call_update iEventSetup => update iEventSetup
  | Call_sigmaZ s => sigmaZ s
  end.

(** The generator after a sequence of calls, each of which may have
    returned or thrown. *)
Fixpoint after (calls : list Call) (g : BetafuncEvtVtxGenerator)
  : BetafuncEvtVtxGenerator :=
  match calls with
  | nil => g
  | cons c rest => after rest (snd (call c g))
  end.

(** [n] events in a row: [vertexShift] once per event on the same engine,
    the vertices in the order of the events. *)
Fixpoint vertexShifts (n : nat) (g : BetafuncEvtVtxGenerator)
  : M HepRandomEngine (list XYZTVector.t) :=
  match n with
  | O => ret nil
  | S k =>
      v <- vertexShift g ;;
      vs <- vertexShifts k g ;;
      ret (cons v vs)
  end.

(** ** Matrix algebra *)

(** Name the sixteen entries of a matrix. *)
Ltac entries m :=
  destruct m as [[? ? ? ?] [? ? ? ?] [? ? ? ?] [? ? ? ?]].

(** Split an equation between two explicit matrices into its entries. *)
Tactic Notation "by_entries" tactic3(tac) :=
  unfold Invert, mmul, identity, zero, build, mget; simpl;
  f_equal; (f_equal; tac).

Lemma mmul_assoc (a b c : TMatrixD) :
  mmul (mmul a b) c = mmul a (mmul b c).
Proof.
  entries a; entries b; entries c.
  by_entries ring.
Qed.

Lemma det_mmul (a b : TMatrixD) : det (mmul a b) = det a * det b.
Proof.
  entries a; entries b.
  unfold det, cofactor, minor, det3, mmul, build, mget; simpl.
  ring.
Qed.

(** The cofactor form of [Invert] is a two-sided inverse of every matrix
    with a non-zero determinant. *)
Lemma Invert_right (m : TMatrixD) :
  det m <> 0 -> mmul m (Invert m) = identity.
Proof.
  intros H. unfold Invert.
  remember (det m) as d eqn:Hd.
  entries m.
  unfold det, cofactor, minor, det3, mget in Hd; simpl in Hd.
  unfold mmul, identity, build, cofactor, minor, det3, mget; simpl.
  f_equal; (f_equal; field_simplify_eq; try exact H; try rewrite Hd; ring).
Qed.

Lemma Invert_left (m : TMatrixD) :
  det m <> 0 -> mmul (Invert m) m = identity.
Proof.
  intros H. unfold Invert.
  remember (det m) as d eqn:Hd.
  entries m.
  unfold det, cofactor, minor, det3, mget in Hd; simpl in Hd.
  unfold mmul, identity, build, cofactor, minor, det3, mget; simpl.
  f_equal; (f_equal; field_simplify_eq; try exact H; try rewrite Hd; ring).
Qed.

Lemma det_identity : det identity = 1.
Proof.
  unfold det, cofactor, minor, det3, identity, build, mget; simpl. ring.
Qed.

Lemma mmul_identity_l (m : TMatrixD) : mmul identity m = m.
Proof. entries m. by_entries ring. Qed.

Lemma mmul_identity_r (m : TMatrixD) : mmul m identity = m.
Proof. entries m. by_entries ring. Qed.

Lemma det_Invert (m : TMatrixD) : det m <> 0 -> det (Invert m) <> 0.
Proof.
  intros H E.
  assert (P : det (mmul m (Invert m)) = 1)
    by (rewrite Invert_right by exact H; apply det_identity).
  rewrite det_mmul, E in P. lra.
Qed.

(** A left inverse that also has a right inverse is unique. *)
Lemma inverse_unique (a b c : TMatrixD) :
  mmul a b = identity -> mmul b c = identity -> c = a.
Proof.
  intros Hab Hbc.
  rewrite <- (mmul_identity_l c), <- Hab, mmul_assoc, Hbc.
  apply mmul_identity_r.
Qed.

Lemma Invert_involutive (m : TMatrixD) :
  det m <> 0 -> Invert (Invert m) = m.
Proof.
  intros H.
  apply (inverse_unique m (Invert m)).
  - apply Invert_right, H.
  - apply Invert_right, det_Invert, H.
Qed.

(** ** The width function *)

Lemma BetaFunction_widthAt (g : BetafuncEvtVtxGenerator) (z z0 : R) :
  BetaFunction g z z0 = widthAt z z0 (fbetastar g) (femittance g).
Proof.
  unfold BetaFunction, widthAt.
  replace ((z - z0) ^ 2) with ((z - z0) * (z - z0)) by ring.
  reflexivity.
Qed.

(** C2.  Whatever else the generator holds, [BetaFunction(z, z0)] on a
    generator with optics [betaStar <> 0] and [emittance] is
    [sqrt (emittance * (betaStar + (z - z0)^2 / betaStar))]; it is a pure
    function, so there is no effect to speak of. *)
Theorem BetaFunction_formula
  (g : BetafuncEvtVtxGenerator) (z z0 betaStar emittance : R) :
  fbetastar g = betaStar -> femittance g = emittance -> betaStar <> 0 ->
  BetaFunction g z z0
  = sqrt (emittance * (betaStar + (z - z0) ^ 2 / betaStar)).
Proof.
  intros Hb He _. rewrite BetaFunction_widthAt, Hb, He. reflexivity.
Qed.

Lemma BetaFunction_formula_witness :
  BetaFunction (mkGenerator false 0 0 0 5.3 55 5.03e-8 0
                            TMatrix.identity ESWatcher.init) 1 0
  = sqrt (5.03e-8 * (55 + (1 - 0) ^ 2 / 55)).
Proof.
  apply (BetaFunction_formula
           (mkGenerator false 0 0 0 5.3 55 5.03e-8 0
                        TMatrix.identity ESWatcher.init) 1 0 55 5.03e-8).
  - reflexivity.
  - reflexivity.
  - lra.
Defined.

(** The quantity under the square root is non-negative for physical
    optics, so the width is a genuine square root. *)
Lemma BetaFunction_radicand_nonneg (g : BetafuncEvtVtxGenerator) (z z0 : R) :
  fbetastar g > 0 -> femittance g >= 0 ->
  0 <= femittance g
       * (fbetastar g + (((z - z0) * (z - z0)) / fbetastar g)).
Proof.
  intros Hb He.
  apply Rmult_le_pos; [lra|].
  assert (0 <= (z - z0) * (z - z0) / fbetastar g).
  { apply Rmult_le_pos; [apply (Rle_0_sqr (z - z0))|].
    left. apply Rinv_0_lt_compat. lra. }
  lra.
Qed.

(** C9.  With [betaStar > 0] and [emittance >= 0] the width is
    non-negative at every [z] (and squares back to the quantity under the
    root), and at the interaction point [z = z0] it is
    [sqrt (emittance * betaStar)]. *)
Theorem BetaFunction_nonneg_and_waist
  (g : BetafuncEvtVtxGenerator) (z z0 : R) :
  fbetastar g > 0 -> femittance g >= 0 ->
  BetaFunction g z z0 >= 0
  /\ BetaFunction g z z0 * BetaFunction g z z0
     = femittance g * (fbetastar g + (z - z0) ^ 2 / fbetastar g)
  /\ BetaFunction g z0 z0 = sqrt (femittance g * fbetastar g).
Proof.
  intros Hb He. repeat split.
  - apply Rle_ge, sqrt_pos.
  - unfold BetaFunction.
    rewrite sqrt_sqrt by (apply BetaFunction_radicand_nonneg; assumption).
    field. lra.
  - unfold BetaFunction. f_equal. field. lra.
Qed.

Lemma BetaFunction_nonneg_and_waist_witness :
  let g := mkGenerator false 0 0 2 5.3 55 5.03e-8 0
                       TMatrix.identity ESWatcher.init in
  BetaFunction g 7 2 >= 0
  /\ BetaFunction g 7 2 * BetaFunction g 7 2
     = 5.03e-8 * (55 + (7 - 2) ^ 2 / 55)
  /\ BetaFunction g 2 2 = sqrt (5.03e-8 * 55).
Proof.
  intros g.
  apply (BetaFunction_nonneg_and_waist g 7 2); simpl; lra.
Defined.

(** ** The vertex sampler *)

Lemma advance_advance (n m : nat) (e : HepRandomEngine) :
  advance m (advance n e) = advance (n + m) e.
Proof. unfold advance; simpl. f_equal. lia. Qed.

(** One call of [shoot] hands out the next variate and moves the engine on
    by one. *)
Lemma shoot_advance (k : nat) (mean stdDev : R) (e : HepRandomEngine) :
  RandGaussQ.shoot mean stdDev (advance k e)
  = (Ok (draws e (consumed e + k) * stdDev + mean), advance (k + 1) e).
Proof.
  unfold RandGaussQ.shoot. rewrite advance_advance. reflexivity.
Qed.

Lemma advance_0 (e : HepRandomEngine) : advance 0 e = e.
Proof. destruct e; unfold advance; simpl. f_equal. lia. Qed.

(** C1.  [vertexShift] takes the next four variates [u0, u1, u2, u3] of the
    engine, in this order, and returns [Z = (u0 * sigmaZ + 0) + z0],
    [X = (u1 * w + 0) + x0], [Y = (u2 * w + 0) + y0] with the one width
    [w = widthAt Z z0 betaStar emittance / sqrt 2], and
    [T = (u3 * sigmaZ + 0) + timeOffset]; the engine has moved on by
    exactly four draws; nothing of the crossing angle enters.  With the
    parameters [(0, 0, 0, 5.3, 55, 5.03e-8, 0)] and all variates equal to
    one, [Z = T = 5.3] and
    [X = Y = sqrt (5.03e-8 * (55 + 5.3^2 / 55)) / sqrt 2]. *)
Theorem vertexShift_sample :
  (forall (g : BetafuncEvtVtxGenerator) (engine : HepRandomEngine),
      let gauss (k : nat) (sigma : R) :=
        draws engine (consumed engine + k) * sigma + 0 in
      let Z := gauss 0%nat (fSigmaZ g) + fZ0 g in
      let width :=
        widthAt Z (fZ0 g) (fbetastar g) (femittance g) / sqrt 2 in
      vertexShift g engine
      = (Ok (XYZTVector.XYZTVector
               (gauss 1%nat width + fX0 g)
               (gauss 2%nat width + fY0 g)
               Z
               (gauss 3%nat (fSigmaZ g) + fTimeOffset g)),
         mkEngine (draws engine) (consumed engine + 4)))
  /\ (forall (rdb : bool) (b : TMatrixD) (w : ESWatcher.t) (n : nat),
         vertexShift (mkGenerator rdb 0 0 0 5.3 55 5.03e-8 0 b w)
                     (mkEngine (fun _ => 1) n)
         = (Ok (XYZTVector.XYZTVector
                  (sqrt (5.03e-8 * (55 + 5.3 ^ 2 / 55)) / sqrt 2)
                  (sqrt (5.03e-8 * (55 + 5.3 ^ 2 / 55)) / sqrt 2)
                  5.3
                  5.3),
            mkEngine (fun _ => 1) (n + 4))).
Proof.
  assert (G : forall g engine,
             vertexShift g engine
             = (Ok (XYZTVector.XYZTVector
                      (draws engine (consumed engine + 1)
                       * (widthAt (draws engine (consumed engine + 0)
                                   * fSigmaZ g + 0 + fZ0 g)
                                  (fZ0 g) (fbetastar g) (femittance g)
                          / sqrt 2) + 0 + fX0 g)
                      (draws engine (consumed engine + 2)
                       * (widthAt (draws engine (consumed engine + 0)
                                   * fSigmaZ g + 0 + fZ0 g)
                                  (fZ0 g) (fbetastar g) (femittance g)
                          / sqrt 2) + 0 + fY0 g)
                      (draws engine (consumed engine + 0)
                       * fSigmaZ g + 0 + fZ0 g)
                      (draws engine (consumed engine + 3)
                       * fSigmaZ g + 0 + fTimeOffset g)),
                mkEngine (draws engine) (consumed engine + 4))).
  { intros g engine. unfold vertexShift, bind, ret.
    rewrite <- (advance_0 engine) at 1.
    rewrite shoot_advance; simpl Nat.add.
    rewrite shoot_advance; simpl Nat.add.
    rewrite shoot_advance; simpl Nat.add.
    rewrite shoot_advance; simpl Nat.add.
    rewrite !BetaFunction_widthAt. reflexivity. }
  split.
  - intros g engine. cbv zeta. apply G.
  - intros rdb b w n. rewrite G. simpl.
    unfold widthAt.
    replace (1 * 5.3 + 0 + 0) with 5.3 by lra.
    replace ((5.3 - 0) ^ 2) with (5.3 ^ 2) by lra.
    set (width := sqrt (5.03e-8 * (55 + 5.3 ^ 2 / 55)) / sqrt 2).
    replace (1 * width + 0 + 0) with width by ring.
    reflexivity.
Qed.

(** ** Configuration, refresh and the width setter *)

Lemma cm_pos : cm > 0.
Proof. unfold cm, centimeter, millimeter. lra. Qed.

(** What the constructor does in static mode, as one case split on the
    sign of the scaled width. *)
Lemma constructor_static (raw : BetafuncEvtVtxGenerator) (p : edm.ParameterSet) :
  edm.readDB p = false ->
  constructor raw p
  = if Rle_dec (edm.SigmaZ p * cm) 0 then
      Throw (cms.mkException "Configuration"
               "Error in BetafuncEvtVtxGenerator: Illegal resolution in Z (SigmaZ is negative)")
    else
      Ok (mkGenerator false
            (edm.X0 p * cm) (edm.Y0 p * cm) (edm.Z0 p * cm)
            (edm.SigmaZ p * cm) (edm.BetaStar p * cm)
            (edm.Emittance p * cm) (edm.TimeOffset p * ns * c_light)
            (Invert (tmpboost (edm.Alpha p * radian) (edm.Phi p * radian)))
            ESWatcher.init).
Proof.
  intros H.
  unfold constructor, constructor_body, setBoost, bind, assign, gets, ret,
    throw; simpl.
  rewrite H; simpl.
  destruct (Rle_dec (edm.SigmaZ p * cm) 0); reflexivity.
Qed.

(** C4.  In static mode ([readDB] false) the constructor throws a
    [Configuration] exception exactly when [SigmaZ <= 0], and returns
    otherwise; in particular it returns for [SigmaZ = 1.0]. *)
Theorem constructor_rejects_nonpositive_SigmaZ
  (raw : BetafuncEvtVtxGenerator) (p : edm.ParameterSet) :
  edm.readDB p = false ->
  (throws (constructor raw p) "Configuration" <-> edm.SigmaZ p <= 0)
  /\ (returns (constructor raw p) <-> ~ edm.SigmaZ p <= 0)
  /\ (edm.SigmaZ p = 1.0 -> returns (constructor raw p)).
Proof.
  intros H. rewrite (constructor_static raw p H).
  pose proof cm_pos as Hcm.
  destruct (Rle_dec (edm.SigmaZ p * cm) 0) as [Hle | Hgt]; simpl.
  - assert (edm.SigmaZ p <= 0) by nra.
    repeat split; try tauto; intros; try lra.
  - assert (~ edm.SigmaZ p <= 0) by (intros Hn; apply Hgt; nra).
    repeat split; try tauto; intros; try lra; try discriminate.
Qed.

Lemma constructor_rejects_nonpositive_SigmaZ_witness :
  let raw := mkGenerator true 0 0 0 0 0 0 0 TMatrix.zero ESWatcher.init in
  let p := edm.mkParameterSet false 0 0 0 1.0 55 5.03e-8 0 0 0 in
  (throws (constructor raw p) "Configuration" <-> 1.0 <= 0)
  /\ (returns (constructor raw p) <-> ~ 1.0 <= 0)
  /\ (1.0 = 1.0 -> returns (constructor raw p)).
Proof.
  intros raw p.
  apply (constructor_rejects_nonpositive_SigmaZ raw p). reflexivity.
Defined.

(** The watcher reports a change exactly when the key differs from the one
    it holds, and then holds the new key. *)
Lemma parameterWatcher_check_changed
  (g : BetafuncEvtVtxGenerator) (iEventSetup : EventSetup) :
  ESWatcher.cacheId_ (parameterWatcher_ g) <> cacheIdentifier iEventSetup ->
  parameterWatcher_check iEventSetup g
  = (Ok true,
     set_parameterWatcher_ g (ESWatcher.mk (cacheIdentifier iEventSetup))).
Proof.
  intros H. unfold parameterWatcher_check, ESWatcher.check.
  apply Nat.eqb_neq in H. rewrite H. reflexivity.
Qed.

(** C5.  When the record is pulled (dynamic mode, new validity key) and it
    is flagged Gaussian, [update] throws a [Configuration] exception and
    the generator keeps every beam-spot parameter and the boost matrix it
    had; only the watcher has noted the new key. *)
Theorem update_gaussian_rejected
  (g : BetafuncEvtVtxGenerator) (iEventSetup : EventSetup) :
  readDB_ g = true ->
  ESWatcher.cacheId_ (parameterWatcher_ g) <> cacheIdentifier iEventSetup ->
  SimBeamSpotObjects.isGaussian (getHandle iEventSetup) = true ->
  throws (fst (update iEventSetup g)) "Configuration"
  /\ parameters (snd (update iEventSetup g)) = parameters g
  /\ boost_ (snd (update iEventSetup g)) = boost_ g
  /\ snd (update iEventSetup g)
     = set_parameterWatcher_ g (ESWatcher.mk (cacheIdentifier iEventSetup)).
Proof.
  intros Hdb Hkey Hg.
  unfold update, bind, gets. rewrite Hdb.
  rewrite (parameterWatcher_check_changed g iEventSetup Hkey).
  cbv zeta. rewrite Hg. simpl. repeat split.
Qed.

Lemma update_gaussian_rejected_witness :
  let g := mkGenerator true 1 2 3 5.3 55 5.03e-8 0
                       TMatrix.identity ESWatcher.init in
  let s := mkEventSetup 7 (SimBeamSpotObjects.mk true 9 9 9 9 9 9 9 9 9) in
  throws (fst (update s g)) "Configuration"
  /\ parameters (snd (update s g)) = parameters g
  /\ boost_ (snd (update s g)) = boost_ g
  /\ snd (update s g) = set_parameterWatcher_ g (ESWatcher.mk 7).
Proof.
  intros g s.
  apply (update_gaussian_rejected g s).
  - reflexivity.
  - simpl. lia.
  - reflexivity.
Defined.

(** C10.  When the record is pulled and it is not flagged Gaussian,
    [update] returns and has replaced every parameter by the scaled field
    of the record and the boost matrix by the one built from the record's
    angles, whatever the sign of the record's [sigmaZ]; the constructor in
    static mode throws on the same [sigmaZ] when it is zero or negative. *)
Theorem update_accepts_any_sigmaZ
  (g : BetafuncEvtVtxGenerator) (iEventSetup : EventSetup) :
  readDB_ g = true ->
  ESWatcher.cacheId_ (parameterWatcher_ g) <> cacheIdentifier iEventSetup ->
  SimBeamSpotObjects.isGaussian (getHandle iEventSetup) = false ->
  let beam := getHandle iEventSetup in
  update iEventSetup g
  = (Ok tt,
     mkGenerator true
       (SimBeamSpotObjects.x beam * cm)
       (SimBeamSpotObjects.y beam * cm)
       (SimBeamSpotObjects.z beam * cm)
       (SimBeamSpotObjects.sigmaZ beam * cm)
       (SimBeamSpotObjects.betaStar beam * cm)
       (SimBeamSpotObjects.emittance beam * cm)
       (SimBeamSpotObjects.timeOffset beam * ns * c_light)
       (Invert (tmpboost (SimBeamSpotObjects.alpha beam * radian)
                         (SimBeamSpotObjects.phi beam * radian)))
       (ESWatcher.mk (cacheIdentifier iEventSetup)))
  /\ (SimBeamSpotObjects.sigmaZ beam <= 0 ->
      forall (raw : BetafuncEvtVtxGenerator) (p : edm.ParameterSet),
        edm.readDB p = false ->
        edm.SigmaZ p = SimBeamSpotObjects.sigmaZ beam ->
        throws (constructor raw p) "Configuration").
Proof.
  intros Hdb Hkey Hg beam. split.
  - destruct g as [rdb x0 y0 z0 sz bs em t0 b w].
    cbn [readDB_] in Hdb. subst rdb.
    unfold update, bind, gets. cbn [readDB_].
    rewrite (parameterWatcher_check_changed _ iEventSetup Hkey).
    cbv zeta. subst beam. rewrite Hg. reflexivity.
  - intros Hs raw p Hp Heq.
    rewrite (constructor_static raw p Hp).
    pose proof cm_pos.
    destruct (Rle_dec (edm.SigmaZ p * cm) 0) as [|Hn]; simpl; [reflexivity|].
    apply Hn. rewrite Heq. nra.
Qed.

Lemma update_accepts_any_sigmaZ_witness :
  let g := mkGenerator true 1 2 3 5.3 55 5.03e-8 0
                       TMatrix.identity ESWatcher.init in
  let beam := SimBeamSpotObjects.mk false 0 0 0 (-1) 55 5.03e-8 0 0 0 in
  update (mkEventSetup 7 beam) g
  = (Ok tt,
     mkGenerator true (0 * cm) (0 * cm) (0 * cm) (-1 * cm) (55 * cm)
       (5.03e-8 * cm) (0 * ns * c_light)
       (Invert (tmpboost (0 * radian) (0 * radian))) (ESWatcher.mk 7))
  /\ (-1 <= 0 ->
      forall (raw : BetafuncEvtVtxGenerator) (p : edm.ParameterSet),
        edm.readDB p = false ->
        edm.SigmaZ p = -1 ->
        throws (constructor raw p) "Configuration").
Proof.
  intros g beam.
  apply (update_accepts_any_sigmaZ g (mkEventSetup 7 beam)).
  - reflexivity.
  - simpl. lia.
  - reflexivity.
Defined.

(** C6.  [sigmaZ(s)] throws a [LogicError] exactly when [s < 0] and then
    leaves the generator as it was; otherwise it returns and the generator
    differs from the old one in [fSigmaZ] alone, which is [s]; [sigmaZ(0)]
    is accepted. *)
Theorem sigmaZ_setter (s : R) (g : BetafuncEvtVtxGenerator) :
  (throws (fst (sigmaZ s g)) "LogicError" <-> s < 0)
  /\ (returns (fst (sigmaZ s g)) <-> ~ s < 0)
  /\ (s < 0 -> snd (sigmaZ s g) = g)
  /\ (~ s < 0 ->
      snd (sigmaZ s g)
      = mkGenerator (readDB_ g) (fX0 g) (fY0 g) (fZ0 g) s (fbetastar g)
                    (femittance g) (fTimeOffset g) (boost_ g)
                    (parameterWatcher_ g))
  /\ sigmaZ 0 g = (Ok tt, set_fSigmaZ g 0).
Proof.
  unfold sigmaZ, assign, throw.
  repeat split; intros;
    try (destruct (Rge_dec 0 0); [reflexivity | lra]);
    destruct (Rge_dec s 0); simpl in *;
    try reflexivity; try tauto; try lra; try discriminate.
Qed.

(** ** The boost matrix *)

(** The sixteen assignments of [setBoost], read back as one matrix. *)
Lemma tmpboost_entries (alpha phi : R) :
  tmpboost alpha phi
  = mkM (mkRow (1 / cos phi) (- cos alpha * sin phi)
               (- tan phi * sin phi) (- sin alpha * sin phi))
        (mkRow (- cos alpha * tan phi) 1 (cos alpha * tan phi) 0)
        (mkRow 0 (- cos alpha * sin phi) (cos phi) (- sin alpha * sin phi))
        (mkRow (- sin alpha * tan phi) 0 (sin alpha * tan phi) 1).
Proof. reflexivity. Qed.

(** Away from [cos phi = 0] the matrix has determinant one. *)
Lemma det_tmpboost (alpha phi : R) :
  cos phi <> 0 -> det (tmpboost alpha phi) = 1.
Proof.
  intros Hc. rewrite tmpboost_entries.
  unfold det, cofactor, minor, det3, mget, tan; simpl.
  pose proof (sin2_cos2 phi) as Hp. unfold Rsqr in Hp.
  pose proof (sin2_cos2 alpha) as Ha. unfold Rsqr in Ha.
  generalize dependent (sin phi). generalize dependent (cos phi).
  generalize dependent (sin alpha). generalize dependent (cos alpha).
  intros ca sa Ha cp Hc sp Hp.
  field_simplify_eq; [|exact Hc].
  transitivity (cp ^ 2
                + (sa * sa + ca * ca) * (sp * sp)
                  * (1 - (sp * sp + cp * cp))); [ring|].
  rewrite Ha, Hp. ring.
Qed.

Lemma Invert_identity : Invert identity = identity.
Proof.
  apply (inverse_unique identity identity).
  - apply mmul_identity_l.
  - apply Invert_right. rewrite det_identity. lra.
Qed.

Lemma tmpboost_0_0 : tmpboost 0 0 = identity.
Proof.
  rewrite tmpboost_entries, sin_0, cos_0, tan_0.
  by_entries lra.
Qed.

(** C3.  [setBoost(alpha, phi)] fills [tmpboost] with the sixteen
    closed-form entries below, and where that matrix is invertible the
    matrix it stores, the one [GetInvLorentzBoost] hands out, is its
    inverse on both sides. *)
Theorem setBoost_stores_inverse
  (alpha phi : R) (g : BetafuncEvtVtxGenerator) :
  det (tmpboost alpha phi) <> 0 ->
  tmpboost alpha phi
  = mkM (mkRow (1 / cos phi) (- cos alpha * sin phi)
               (- tan phi * sin phi) (- sin alpha * sin phi))
        (mkRow (- cos alpha * tan phi) 1 (cos alpha * tan phi) 0)
        (mkRow 0 (- cos alpha * sin phi) (cos phi) (- sin alpha * sin phi))
        (mkRow (- sin alpha * tan phi) 0 (sin alpha * tan phi) 1)
  /\ fst (setBoost alpha phi g) = Ok tt
  /\ mmul (tmpboost alpha phi)
          (GetInvLorentzBoost (snd (setBoost alpha phi g)))
     = identity
  /\ mmul (GetInvLorentzBoost (snd (setBoost alpha phi g)))
          (tmpboost alpha phi)
     = identity.
Proof.
  intros Hd. repeat split.
  - apply Invert_right, Hd.
  - apply Invert_left, Hd.
Qed.

Lemma setBoost_stores_inverse_witness :
  let g := mkGenerator false 0 0 0 5.3 55 5.03e-8 0
                       TMatrix.zero ESWatcher.init in
  tmpboost 0 0
  = mkM (mkRow (1 / cos 0) (- cos 0 * sin 0)
               (- tan 0 * sin 0) (- sin 0 * sin 0))
        (mkRow (- cos 0 * tan 0) 1 (cos 0 * tan 0) 0)
        (mkRow 0 (- cos 0 * sin 0) (cos 0) (- sin 0 * sin 0))
        (mkRow (- sin 0 * tan 0) 0 (sin 0 * tan 0) 1)
  /\ fst (setBoost 0 0 g) = Ok tt
  /\ mmul (tmpboost 0 0) (GetInvLorentzBoost (snd (setBoost 0 0 g)))
     = identity
  /\ mmul (GetInvLorentzBoost (snd (setBoost 0 0 g))) (tmpboost 0 0)
     = identity.
Proof.
  intros g.
  apply (setBoost_stores_inverse 0 0 g).
  rewrite tmpboost_0_0, det_identity. lra.
Defined.

(** C7.  For [phi] away from the zeros of [cos] (so away from [+/- pi/2]),
    inverting the matrix built by [setBoost] and inverting the result
    again gives back the matrix before inversion; equivalently, inverting
    the stored boost matrix recovers it. *)
Theorem Invert_round_trip
  (alpha phi : R) (g : BetafuncEvtVtxGenerator) :
  cos phi <> 0 ->
  Invert (Invert (tmpboost alpha phi)) = tmpboost alpha phi
  /\ Invert (GetInvLorentzBoost (snd (setBoost alpha phi g)))
     = tmpboost alpha phi.
Proof.
  intros Hc.
  assert (Hd : det (tmpboost alpha phi) <> 0)
    by (rewrite det_tmpboost by exact Hc; lra).
  split; apply Invert_involutive, Hd.
Qed.

Lemma Invert_round_trip_witness :
  let g := mkGenerator false 0 0 0 5.3 55 5.03e-8 0
                       TMatrix.zero ESWatcher.init in
  Invert (Invert (tmpboost 1 0)) = tmpboost 1 0
  /\ Invert (GetInvLorentzBoost (snd (setBoost 1 0 g))) = tmpboost 1 0.
Proof.
  intros g.
  apply (Invert_round_trip 1 0 g).
  rewrite cos_0. lra.
Defined.

(** C8.  With [alpha = 0] and [phi = 0] the matrix built is the identity,
    and so is the boost matrix [setBoost(0, 0)] stores. *)
Theorem setBoost_0_0_identity (g : BetafuncEvtVtxGenerator) :
  tmpboost 0 0 = identity
  /\ GetInvLorentzBoost (snd (setBoost 0 0 g)) = identity.
Proof.
  split.
  - apply tmpboost_0_0.
  - unfold GetInvLorentzBoost, setBoost, assign; simpl.
    rewrite tmpboost_0_0. apply Invert_identity.
Qed.

(** * Further properties of the code *)

(** ** The width along the beam axis *)

(** X1.  For [betaStar > 0] and [emittance >= 0] the width grows with the
    distance from the waist: [|z1 - z0| <= |z2 - z0|] gives
    [BetaFunction(z1, z0) <= BetaFunction(z2, z0)]; in particular the beam
    is nowhere narrower than at [z = z0]. *)
Theorem BetaFunction_grows_from_waist
  (g : BetafuncEvtVtxGenerator) (z1 z2 z0 : R) :
  fbetastar g > 0 -> femittance g >= 0 ->
  Rabs (z1 - z0) <= Rabs (z2 - z0) ->
  BetaFunction g z1 z0 <= BetaFunction g z2 z0
  /\ BetaFunction g z0 z0 <= BetaFunction g z1 z0.
Proof.
  intros Hb He Hd.
  assert (mono : forall a b, Rabs (a - z0) <= Rabs (b - z0) ->
                             BetaFunction g a z0 <= BetaFunction g b z0).
  { intros a b Hab. unfold BetaFunction.
    apply sqrt_le_1_alt.
    apply Rmult_le_compat_l; [lra|].
    apply Rplus_le_compat_l.
    apply Rmult_le_compat_r.
    - left. apply Rinv_0_lt_compat. lra.
    - apply (Rsqr_le_abs_1 (a - z0) (b - z0)), Hab. }
  split.
  - apply mono, Hd.
  - apply mono.
    replace (z0 - z0) with 0 by ring. rewrite Rabs_R0. apply Rabs_pos.
Qed.

Lemma BetaFunction_grows_from_waist_witness :
  let g := mkGenerator false 0 0 2 5.3 55 5.03e-8 0
                       TMatrix.identity ESWatcher.init in
  BetaFunction g 1 2 <= BetaFunction g 7 2
  /\ BetaFunction g 2 2 <= BetaFunction g 1 2.
Proof.
  intros g.
  apply (BetaFunction_grows_from_waist g 1 7 2).
  - simpl; lra.
  - simpl; lra.
  - replace (1 - 2) with (- (1)) by ring. replace (7 - 2) with 5 by ring.
    rewrite Rabs_Ropp, !Rabs_pos_eq; lra.
Defined.

(** X2.  The width depends on [z] and [z0] through [|z - z0|] alone: it
    is the same on both sides of the waist and does not change when [z]
    and [z0] are shifted together. *)
Theorem BetaFunction_depends_on_distance
  (g : BetafuncEvtVtxGenerator) (z z0 z' z0' : R) :
  Rabs (z - z0) = Rabs (z' - z0') ->
  BetaFunction g z z0 = BetaFunction g z' z0'.
Proof.
  intros H. unfold BetaFunction.
  assert (E : (z - z0) * (z - z0) = (z' - z0') * (z' - z0')).
  { change (Rsqr (z - z0) = Rsqr (z' - z0')).
    rewrite (Rsqr_abs (z - z0)), (Rsqr_abs (z' - z0')), H. reflexivity. }
  rewrite E. reflexivity.
Qed.

Lemma BetaFunction_depends_on_distance_witness :
  let g := mkGenerator false 0 0 2 5.3 55 5.03e-8 0
                       TMatrix.identity ESWatcher.init in
  BetaFunction g 5 2 = BetaFunction g (-4) (-1).
Proof.
  intros g.
  apply (BetaFunction_depends_on_distance g 5 2 (-4) (-1)).
  replace (5 - 2) with 3 by ring. replace (-4 - -1) with (- (3)) by ring.
  rewrite Rabs_Ropp. reflexivity.
Defined.

(** X3.  Far from the waist the width grows at least linearly: for
    [betaStar > 0] and [emittance >= 0],
    [BetaFunction(z, z0) >= sqrt (emittance / betaStar) * |z - z0|]. *)
Theorem BetaFunction_linear_lower_bound
  (g : BetafuncEvtVtxGenerator) (z z0 : R) :
  fbetastar g > 0 -> femittance g >= 0 ->
  sqrt (femittance g / fbetastar g) * Rabs (z - z0) <= BetaFunction g z z0.
Proof.
  intros Hb He.
  assert (Hq : 0 <= femittance g / fbetastar g).
  { apply Rmult_le_pos; [lra|]. left. apply Rinv_0_lt_compat. lra. }
  rewrite <- (sqrt_Rsqr_abs (z - z0)).
  rewrite <- sqrt_mult_alt by exact Hq.
  unfold BetaFunction. apply sqrt_le_1_alt. unfold Rsqr.
  replace (femittance g
           * (fbetastar g + (z - z0) * (z - z0) / fbetastar g))
    with (femittance g * fbetastar g
          + femittance g / fbetastar g * ((z - z0) * (z - z0)))
    by (field; lra).
  assert (0 <= femittance g * fbetastar g) by (apply Rmult_le_pos; lra).
  lra.
Qed.

Lemma BetaFunction_linear_lower_bound_witness :
  let g := mkGenerator false 0 0 2 5.3 55 5.03e-8 0
                       TMatrix.identity ESWatcher.init in
  sqrt (5.03e-8 / 55) * Rabs (7 - 2) <= BetaFunction g 7 2.
Proof.
  intros g.
  apply (BetaFunction_linear_lower_bound g 7 2); simpl; lra.
Defined.

(** ** The sampler and the engine *)

(** [vertexShift] run on an engine, in closed form. *)
Lemma vertexShift_run (g : BetafuncEvtVtxGenerator) (e : HepRandomEngine) :
  vertexShift g e
  = (Ok (XYZTVector.XYZTVector
           (draws e (consumed e + 1)
            * (BetaFunction g (draws e (consumed e + 0) * fSigmaZ g + 0
                               + fZ0 g) (fZ0 g) / sqrt 2)
            + 0 + fX0 g)
           (draws e (consumed e + 2)
            * (BetaFunction g (draws e (consumed e + 0) * fSigmaZ g + 0
                               + fZ0 g) (fZ0 g) / sqrt 2)
            + 0 + fY0 g)
           (draws e (consumed e + 0) * fSigmaZ g + 0 + fZ0 g)
           (draws e (consumed e + 3) * fSigmaZ g + 0 + fTimeOffset g)),
     advance 4 e).
Proof.
  unfold vertexShift, bind, ret.
  rewrite <- (advance_0 e) at 1.
  rewrite shoot_advance; simpl Nat.add.
  rewrite shoot_advance; simpl Nat.add.
  rewrite shoot_advance; simpl Nat.add.
  rewrite shoot_advance; simpl Nat.add.
  reflexivity.
Qed.



(** X5.  The vertex depends on the engine through its next four variates
    alone: two engines that agree on them give the same vertex, whatever
    they have handed out before and will hand out later. *)
Theorem vertexShift_reads_four_draws
  (g : BetafuncEvtVtxGenerator) (e e' : HepRandomEngine) :
  (forall k : nat, (k < 4)%nat ->
                   draws e (consumed e + k) = draws e' (consumed e' + k)) ->
  fst (vertexShift g e) = fst (vertexShift g e').
Proof.
  intros H. rewrite !vertexShift_run. cbn [fst].
  rewrite !H by lia. reflexivity.
Qed.

Lemma vertexShift_reads_four_draws_witness :
  let g := mkGenerator false 1 2 3 5.3 55 5.03e-8 4
                       TMatrix.identity ESWatcher.init in
  fst (vertexShift g (mkEngine (fun k => if (k <? 4)%nat then 1 else 7) 0))
  = fst (vertexShift g (mkEngine (fun _ => 1) 100)).
Proof.
  intros g.
  apply (vertexShift_reads_four_draws g
           (mkEngine (fun k => if (k <? 4)%nat then 1 else 7) 0)
           (mkEngine (fun _ => 1) 100)).
  intros k Hk. cbn [draws consumed Nat.add].
  apply Nat.ltb_lt in Hk. rewrite Hk. reflexivity.
Defined.

(** X6.  [n] events in a row never throw, use [4 * n] variates, and the
    vertex of event [k] is the one [vertexShift] gives on the engine moved
    on by [4 * k]: events do not influence one another. *)
Theorem vertexShifts_events
  (n : nat) (g : BetafuncEvtVtxGenerator) (e : HepRandomEngine) :
  exists vs : list XYZTVector.t,
    vertexShifts n g e = (Ok vs, advance (4 * n) e)
    /\ List.length vs = n
    /\ forall (k : nat) (d : XYZTVector.t),
        (k < n)%nat ->
        fst (vertexShift g (advance (4 * k) e)) = Ok (List.nth k vs d).
Proof.
  revert e. induction n as [|n IH]; intros e.
  - exists nil. repeat split.
    + simpl. unfold ret. rewrite advance_0. reflexivity.
    + intros k d Hk. lia.
  - destruct (IH (advance 4 e)) as [vs [Hrun [Hlen Hnth]]].
    pose proof (vertexShift_run g e) as Hv.
    destruct (vertexShift g e) as [r e1] eqn:Hve.
    injection Hv as Hr He1. subst r e1.
    eexists (cons _ vs). repeat split.
    + cbn [vertexShifts]. unfold bind at 1. rewrite Hve.
      unfold bind at 1. rewrite Hrun. unfold ret.
      rewrite advance_advance.
      replace (4 + 4 * n)%nat with (4 * S n)%nat by lia. reflexivity.
    + cbn [List.length]. rewrite Hlen. reflexivity.
    + intros k d Hk. destruct k as [|k].
      * rewrite Nat.mul_0_r, advance_0, Hve. reflexivity.
      * cbn [List.nth]. rewrite <- (Hnth k d) by lia.
        rewrite advance_advance.
        replace (4 + 4 * k)%nat with (4 * S k)%nat by lia. reflexivity.
Qed.

(** X7.  With zero emittance and [betaStar <> 0] the beam has no
    transverse size: [X = fX0] and [Y = fY0] whatever the engine draws. *)
Theorem vertexShift_zero_emittance
  (g : BetafuncEvtVtxGenerator) (e : HepRandomEngine) :
  femittance g = 0 -> fbetastar g <> 0 ->
  exists v : XYZTVector.t,
    fst (vertexShift g e) = Ok v
    /\ XYZTVector.X v = fX0 g /\ XYZTVector.Y v = fY0 g.
Proof.
  intros He _. rewrite vertexShift_run. cbn [fst].
  eexists. split; [reflexivity|]. cbn [XYZTVector.X XYZTVector.Y].
  unfold BetaFunction. rewrite He, Rmult_0_l, sqrt_0.
  split; unfold Rdiv; ring.
Qed.

Lemma vertexShift_zero_emittance_witness :
  exists v : XYZTVector.t,
    fst (vertexShift (mkGenerator false 1 2 3 5.3 55 0 4
                                  TMatrix.identity ESWatcher.init)
                     (mkEngine (fun _ => 1) 0)) = Ok v
    /\ XYZTVector.X v = 1 /\ XYZTVector.Y v = 2.
Proof.
  apply (vertexShift_zero_emittance
           (mkGenerator false 1 2 3 5.3 55 0 4
                        TMatrix.identity ESWatcher.init)
           (mkEngine (fun _ => 1) 0)).
  - reflexivity.
  - simpl. lra.
Defined.

(** X8.  [sigmaZ(0)] is accepted, and a generator set this way puts every
    vertex at [Z = fZ0] and [T = fTimeOffset] and, for [betaStar <> 0],
    draws [X] and [Y] with the waist width
    [sqrt (emittance * betaStar) / sqrt 2]. *)
Theorem sigmaZ_zero_then_vertexShift
  (g : BetafuncEvtVtxGenerator) (e : HepRandomEngine) :
  fbetastar g <> 0 ->
  fst (sigmaZ 0 g) = Ok tt
  /\ fst (vertexShift (snd (sigmaZ 0 g)) e)
     = Ok (XYZTVector.XYZTVector
             (draws e (consumed e + 1)
              * (sqrt (femittance g * fbetastar g) / sqrt 2) + fX0 g)
             (draws e (consumed e + 2)
              * (sqrt (femittance g * fbetastar g) / sqrt 2) + fY0 g)
             (fZ0 g)
             (fTimeOffset g)).
Proof.
  intros Hb.
  assert (Hs : sigmaZ 0 g = (Ok tt, set_fSigmaZ g 0)).
  { unfold sigmaZ, assign. destruct (Rge_dec 0 0); [reflexivity | lra]. }
  rewrite Hs. cbn [fst snd]. split; [reflexivity|].
  rewrite vertexShift_run. cbn [fst].
  unfold BetaFunction, set_fSigmaZ.
  cbn [fX0 fY0 fZ0 fSigmaZ fbetastar femittance fTimeOffset].
  replace (femittance g
           * (fbetastar g
              + (draws e (consumed e + 0) * 0 + 0 + fZ0 g - fZ0 g)
                * (draws e (consumed e + 0) * 0 + 0 + fZ0 g - fZ0 g)
                / fbetastar g))
    with (femittance g * fbetastar g) by (field; exact Hb).
  do 2 f_equal; ring.
Qed.

Lemma sigmaZ_zero_then_vertexShift_witness :
  let g := mkGenerator false 1 2 3 5.3 55 5.03e-8 4
                       TMatrix.identity ESWatcher.init in
  let e := mkEngine (fun _ => 1) 0 in
  fst (sigmaZ 0 g) = Ok tt
  /\ fst (vertexShift (snd (sigmaZ 0 g)) e)
     = Ok (XYZTVector.XYZTVector
             (1 * (sqrt (5.03e-8 * 55) / sqrt 2) + 1)
             (1 * (sqrt (5.03e-8 * 55) / sqrt 2) + 2)
             3 4).
Proof.
  intros g e.
  apply (sigmaZ_zero_then_vertexShift g e). simpl. lra.
Defined.

(** ** Construction and refresh *)

Lemma update_static (g : BetafuncEvtVtxGenerator) (iEventSetup : EventSetup) :
  readDB_ g = false -> update iEventSetup g = (Ok tt, g).
Proof.
  intros H. unfold update, bind, gets, ret. rewrite H. reflexivity.
Qed.

Lemma update_same_key (g : BetafuncEvtVtxGenerator) (iEventSetup : EventSetup) :
  ESWatcher.cacheId_ (parameterWatcher_ g) = cacheIdentifier iEventSetup ->
  update iEventSetup g = (Ok tt, g).
Proof.
  intros H. destruct g as [rdb x0 y0 z0 sz bs em t0 b [key]].
  cbn [parameterWatcher_ ESWatcher.cacheId_] in H. subst key.
  unfold update, bind, gets, ret, parameterWatcher_check, ESWatcher.check.
  destruct rdb; cbn [readDB_ parameterWatcher_ ESWatcher.cacheId_];
    [rewrite Nat.eqb_refl|]; reflexivity.
Qed.

Lemma update_pulled (g : BetafuncEvtVtxGenerator) (iEventSetup : EventSetup) :
  readDB_ g = true ->
  ESWatcher.cacheId_ (parameterWatcher_ g) <> cacheIdentifier iEventSetup ->
  SimBeamSpotObjects.isGaussian (getHandle iEventSetup) = false ->
  update iEventSetup g
  = (Ok tt,
     mkGenerator true
       (SimBeamSpotObjects.x (getHandle iEventSetup) * cm)
       (SimBeamSpotObjects.y (getHandle iEventSetup) * cm)
       (SimBeamSpotObjects.z (getHandle iEventSetup) * cm)
       (SimBeamSpotObjects.sigmaZ (getHandle iEventSetup) * cm)
       (SimBeamSpotObjects.betaStar (getHandle iEventSetup) * cm)
       (SimBeamSpotObjects.emittance (getHandle iEventSetup) * cm)
       (SimBeamSpotObjects.timeOffset (getHandle iEventSetup) * ns * c_light)
       (Invert (tmpboost
                  (SimBeamSpotObjects.alpha (getHandle iEventSetup) * radian)
                  (SimBeamSpotObjects.phi (getHandle iEventSetup) * radian)))
       (ESWatcher.mk (cacheIdentifier iEventSetup))).
Proof.
  intros Hdb Hkey Hg.
  destruct g as [rdb x0 y0 z0 sz bs em t0 b w].
  cbn [readDB_] in Hdb. subst rdb.
  unfold update, bind, gets. cbn [readDB_].
  rewrite (parameterWatcher_check_changed _ iEventSetup Hkey).
  cbv zeta. rewrite Hg. reflexivity.
Qed.

Lemma update_pulled_gaussian
  (g : BetafuncEvtVtxGenerator) (iEventSetup : EventSetup) :
  readDB_ g = true ->
  ESWatcher.cacheId_ (parameterWatcher_ g) <> cacheIdentifier iEventSetup ->
  SimBeamSpotObjects.isGaussian (getHandle iEventSetup) = true ->
  exists e : cms.Exception,
    cms.category e = "Configuration"
    /\ update iEventSetup g
       = (Throw e,
          set_parameterWatcher_ g (ESWatcher.mk (cacheIdentifier iEventSetup))).
Proof.
  intros Hdb Hkey Hg.
  unfold update, bind, gets. rewrite Hdb.
  rewrite (parameterWatcher_check_changed g iEventSetup Hkey).
  cbv zeta. rewrite Hg. cbn [negb]. unfold throw.
  eexists. split; [|reflexivity]. reflexivity.
Qed.

(** After [update] in dynamic mode the watcher holds the key of the
    set-up it was given, however the call ended. *)
Lemma update_remembers_key
  (g : BetafuncEvtVtxGenerator) (iEventSetup : EventSetup) :
  readDB_ g = true ->
  readDB_ (snd (update iEventSetup g)) = true
  /\ ESWatcher.cacheId_ (parameterWatcher_ (snd (update iEventSetup g)))
     = cacheIdentifier iEventSetup.
Proof.
  intros Hdb.
  destruct (Nat.eq_dec (ESWatcher.cacheId_ (parameterWatcher_ g))
                       (cacheIdentifier iEventSetup)) as [Heq | Hne].
  - rewrite (update_same_key g iEventSetup Heq). cbn [snd]. auto.
  - destruct (SimBeamSpotObjects.isGaussian (getHandle iEventSetup)) eqn:Hg.
    + destruct (update_pulled_gaussian g iEventSetup Hdb Hne Hg)
        as [e [_ Hu]].
      rewrite Hu. cbn [snd]. unfold set_parameterWatcher_.
      cbn [readDB_ parameterWatcher_ ESWatcher.cacheId_]. auto.
    + rewrite (update_pulled g iEventSetup Hdb Hne Hg). cbn [snd].
      cbn [readDB_ parameterWatcher_ ESWatcher.cacheId_]. auto.
Qed.

(** X9.  In dynamic mode ([readDB] true) the constructor returns whatever
    the configured [SigmaZ] is, also zero or negative; it assigns none of
    the numeric members, which keep what the storage held, and the boost
    matrix is the zero-filled 4x4 matrix, which has determinant zero. *)
Theorem constructor_dynamic_mode
  (raw : BetafuncEvtVtxGenerator) (p : edm.ParameterSet) :
  edm.readDB p = true ->
  constructor raw p
  = Ok (mkGenerator true (fX0 raw) (fY0 raw) (fZ0 raw) (fSigmaZ raw)
                    (fbetastar raw) (femittance raw) (fTimeOffset raw)
                    TMatrix.zero ESWatcher.init)
  /\ det TMatrix.zero = 0.
Proof.
  intros H. split.
  - unfold constructor, constructor_body, bind, assign, gets, ret.
    unfold set_readDB_, set_parameterWatcher_, set_boost_.
    cbn [readDB_ fX0 fY0 fZ0 fSigmaZ fbetastar femittance fTimeOffset
         boost_ parameterWatcher_].
    rewrite H. reflexivity.
  - unfold det, cofactor, minor, det3, TMatrix.zero, build, mget; simpl.
    ring.
Qed.

Lemma constructor_dynamic_mode_witness :
  let raw := mkGenerator false 1 2 3 4 5 6 7 TMatrix.identity
                         (ESWatcher.mk 9) in
  constructor raw (edm.mkParameterSet true 0 0 0 (-1) 0 0 0 0 0)
  = Ok (mkGenerator true 1 2 3 4 5 6 7 TMatrix.zero ESWatcher.init)
  /\ det TMatrix.zero = 0.
Proof.
  intros raw.
  apply (constructor_dynamic_mode
           raw (edm.mkParameterSet true 0 0 0 (-1) 0 0 0 0 0)).
  reflexivity.
Defined.

(** X10.  A static configuration with [SigmaZ > 0] is taken in with its
    units converted once: lengths given in centimetres are stored in
    millimetres (times 10), the time offset given in nanoseconds is stored
    as a length in millimetres (times 299.792458), and the angles are
    used as given, in radians. *)
Theorem constructor_converts_units
  (raw : BetafuncEvtVtxGenerator) (p : edm.ParameterSet) :
  edm.readDB p = false -> edm.SigmaZ p > 0 ->
  exists g : BetafuncEvtVtxGenerator,
    constructor raw p = Ok g
    /\ fX0 g = 10 * edm.X0 p /\ fY0 g = 10 * edm.Y0 p
    /\ fZ0 g = 10 * edm.Z0 p /\ fSigmaZ g = 10 * edm.SigmaZ p
    /\ fbetastar g = 10 * edm.BetaStar p
    /\ femittance g = 10 * edm.Emittance p
    /\ fTimeOffset g = 299.792458 * edm.TimeOffset p
    /\ GetInvLorentzBoost g = Invert (tmpboost (edm.Alpha p) (edm.Phi p)).
Proof.
  intros Hdb Hs. rewrite (constructor_static raw p Hdb).
  pose proof cm_pos.
  destruct (Rle_dec (edm.SigmaZ p * cm) 0) as [Hle | _]; [nra|].
  eexists. split; [reflexivity|].
  unfold GetInvLorentzBoost.
  cbn [fX0 fY0 fZ0 fSigmaZ fbetastar femittance fTimeOffset boost_].
  unfold cm, centimeter, millimeter, ns, nanosecond, c_light, meter, second,
    radian.
  rewrite !Rmult_1_r.
  repeat split; try reflexivity; lra.
Qed.

Lemma constructor_converts_units_witness :
  let raw := mkGenerator true 0 0 0 0 0 0 0 TMatrix.zero ESWatcher.init in
  let p := edm.mkParameterSet false 0.1 0.2 0.3 5.3 55 5.03e-8 0 0 2 in
  exists g : BetafuncEvtVtxGenerator,
    constructor raw p = Ok g
    /\ fX0 g = 10 * 0.1 /\ fY0 g = 10 * 0.2
    /\ fZ0 g = 10 * 0.3 /\ fSigmaZ g = 10 * 5.3
    /\ fbetastar g = 10 * 55
    /\ femittance g = 10 * 5.03e-8
    /\ fTimeOffset g = 299.792458 * 2
    /\ GetInvLorentzBoost g = Invert (tmpboost 0 0).
Proof.
  intros raw p.
  apply (constructor_converts_units raw p).
  - reflexivity.
  - simpl. lra.
Defined.

(** X11.  The two ways in agree: refreshing from a beta-function record
    gives the same parameters and the same boost matrix as constructing
    statically from a configuration with the same field values (with
    [sigmaZ > 0], which the static way requires). *)
Theorem update_agrees_with_constructor
  (g raw : BetafuncEvtVtxGenerator) (iEventSetup : EventSetup) :
  readDB_ g = true ->
  ESWatcher.cacheId_ (parameterWatcher_ g) <> cacheIdentifier iEventSetup ->
  SimBeamSpotObjects.isGaussian (getHandle iEventSetup) = false ->
  SimBeamSpotObjects.sigmaZ (getHandle iEventSetup) > 0 ->
  let beam := getHandle iEventSetup in
  let p := edm.mkParameterSet false
             (SimBeamSpotObjects.x beam) (SimBeamSpotObjects.y beam)
             (SimBeamSpotObjects.z beam) (SimBeamSpotObjects.sigmaZ beam)
             (SimBeamSpotObjects.betaStar beam)
             (SimBeamSpotObjects.emittance beam)
             (SimBeamSpotObjects.alpha beam) (SimBeamSpotObjects.phi beam)
             (SimBeamSpotObjects.timeOffset beam) in
  exists gs : BetafuncEvtVtxGenerator,
    constructor raw p = Ok gs
    /\ fst (update iEventSetup g) = Ok tt
    /\ parameters (snd (update iEventSetup g)) = parameters gs
    /\ GetInvLorentzBoost (snd (update iEventSetup g))
       = GetInvLorentzBoost gs.
Proof.
  intros Hdb Hkey Hg Hs beam p.
  rewrite (update_pulled g iEventSetup Hdb Hkey Hg).
  rewrite (constructor_static raw p eq_refl).
  pose proof cm_pos.
  destruct (Rle_dec (edm.SigmaZ p * cm) 0) as [Hle | _].
  - exfalso. subst p beam. cbn [edm.SigmaZ] in Hle. nra.
  - eexists. split; [reflexivity|]. repeat split.
Qed.

Lemma update_agrees_with_constructor_witness :
  let g := mkGenerator true 1 2 3 4 5 6 7 TMatrix.zero ESWatcher.init in
  let raw := mkGenerator false 9 9 9 9 9 9 9 TMatrix.identity
                         (ESWatcher.mk 4) in
  let beam := SimBeamSpotObjects.mk false 0.1 0.2 0.3 5.3 55 5.03e-8 0 0 2 in
  let s := mkEventSetup 1 beam in
  exists gs : BetafuncEvtVtxGenerator,
    constructor raw
      (edm.mkParameterSet false 0.1 0.2 0.3 5.3 55 5.03e-8 0 0 2) = Ok gs
    /\ fst (update s g) = Ok tt
    /\ parameters (snd (update s g)) = parameters gs
    /\ GetInvLorentzBoost (snd (update s g)) = GetInvLorentzBoost gs.
Proof.
  intros g raw beam s.
  apply (update_agrees_with_constructor g raw s).
  - reflexivity.
  - simpl. lia.
  - reflexivity.
  - simpl. lra.
Defined.

(** X12.  In dynamic mode nothing uninitialised survives the first
    refresh: after the constructor and one [beginLuminosityBlock] that
    pulls a beta-function record (a validity key other than the watcher's
    initial one), the generator is fixed by the record and the key alone,
    whatever the storage held. *)
Theorem first_refresh_initialises
  (raw : BetafuncEvtVtxGenerator) (p : edm.ParameterSet)
  (iEventSetup : EventSetup) :
  edm.readDB p = true ->
  cacheIdentifier iEventSetup <> 0%nat ->
  SimBeamSpotObjects.isGaussian (getHandle iEventSetup) = false ->
  exists g : BetafuncEvtVtxGenerator,
    constructor raw p = Ok g
    /\ beginLuminosityBlock iEventSetup g
       = (Ok tt,
          mkGenerator true
            (SimBeamSpotObjects.x (getHandle iEventSetup) * cm)
            (SimBeamSpotObjects.y (getHandle iEventSetup) * cm)
            (SimBeamSpotObjects.z (getHandle iEventSetup) * cm)
            (SimBeamSpotObjects.sigmaZ (getHandle iEventSetup) * cm)
            (SimBeamSpotObjects.betaStar (getHandle iEventSetup) * cm)
            (SimBeamSpotObjects.emittance (getHandle iEventSetup) * cm)
            (SimBeamSpotObjects.timeOffset (getHandle iEventSetup)
             * ns * c_light)
            (Invert
               (tmpboost
                  (SimBeamSpotObjects.alpha (getHandle iEventSetup) * radian)
                  (SimBeamSpotObjects.phi (getHandle iEventSetup) * radian)))
            (ESWatcher.mk (cacheIdentifier iEventSetup))).
Proof.
  intros Hdb Hkey Hg.
  eexists. split.
  - unfold constructor, constructor_body, bind, assign, gets, ret.
    unfold set_readDB_, set_parameterWatcher_, set_boost_.
    cbn [readDB_ fX0 fY0 fZ0 fSigmaZ fbetastar femittance fTimeOffset
         boost_ parameterWatcher_].
    rewrite Hdb. reflexivity.
  - unfold beginLuminosityBlock. apply update_pulled.
    + reflexivity.
    + cbn [parameterWatcher_ ESWatcher.init ESWatcher.cacheId_].
      intros E. apply Hkey. symmetry. exact E.
    + exact Hg.
Qed.

Lemma first_refresh_initialises_witness :
  let raw := mkGenerator false 1 2 3 4 5 6 7 TMatrix.identity
                         (ESWatcher.mk 9) in
  let p := edm.mkParameterSet true 0 0 0 0 0 0 0 0 0 in
  let beam := SimBeamSpotObjects.mk false 0.1 0.2 0.3 5.3 55 5.03e-8 0 0 2 in
  exists g : BetafuncEvtVtxGenerator,
    constructor raw p = Ok g
    /\ beginLuminosityBlock (mkEventSetup 1 beam) g
       = (Ok tt,
          mkGenerator true (0.1 * cm) (0.2 * cm) (0.3 * cm) (5.3 * cm)
            (55 * cm) (5.03e-8 * cm) (2 * ns * c_light)
            (Invert (tmpboost (0 * radian) (0 * radian)))
            (ESWatcher.mk 1)).
Proof.
  intros raw p beam.
  apply (first_refresh_initialises raw p (mkEventSetup 1 beam)).
  - reflexivity.
  - simpl. lia.
  - reflexivity.
Defined.

(** X13.  On a statically configured generator ([readDB_] false) [update]
    and [beginLuminosityBlock] do nothing at all: they return, they do not
    consult the watcher, and a Gaussian record is not even looked at. *)
Theorem update_ignored_in_static_mode
  (g : BetafuncEvtVtxGenerator) (iEventSetup : EventSetup) :
  readDB_ g = false ->
  update iEventSetup g = (Ok tt, g)
  /\ beginLuminosityBlock iEventSetup g = (Ok tt, g).
Proof.
  intros H. split; apply update_static, H.
Qed.

Lemma update_ignored_in_static_mode_witness :
  let g := mkGenerator false 1 2 3 5.3 55 5.03e-8 0
                       TMatrix.identity ESWatcher.init in
  let s := mkEventSetup 7 (SimBeamSpotObjects.mk true 9 9 9 9 9 9 9 9 9) in
  update s g = (Ok tt, g) /\ beginLuminosityBlock s g = (Ok tt, g).
Proof.
  intros g s.
  apply (update_ignored_in_static_mode g s). reflexivity.
Defined.

(** X14.  When the validity key of the set-up is the one the watcher
    holds, [update] returns and leaves the generator untouched: the record
    is not pulled again, whatever it contains. *)
Theorem update_ignored_on_same_key
  (g : BetafuncEvtVtxGenerator) (iEventSetup : EventSetup) :
  ESWatcher.cacheId_ (parameterWatcher_ g) = cacheIdentifier iEventSetup ->
  update iEventSetup g = (Ok tt, g).
Proof. apply update_same_key. Qed.

Lemma update_ignored_on_same_key_witness :
  let g := mkGenerator true 1 2 3 5.3 55 5.03e-8 0
                       TMatrix.identity (ESWatcher.mk 7) in
  let s := mkEventSetup 7 (SimBeamSpotObjects.mk true 9 9 9 9 9 9 9 9 9) in
  update s g = (Ok tt, g).
Proof.
  intros g s.
  apply (update_ignored_on_same_key g s). reflexivity.
Defined.

(** X15.  In dynamic mode a second [beginLuminosityBlock] under the same
    validity key returns and changes nothing, however the first one
    ended.  In particular a Gaussian record is rejected once: the call
    that pulls it throws, and the next call on the same set-up returns
    with the old parameters still in place. *)
Theorem beginLuminosityBlock_twice
  (g : BetafuncEvtVtxGenerator) (s s' : EventSetup) :
  readDB_ g = true ->
  cacheIdentifier s' = cacheIdentifier s ->
  beginLuminosityBlock s' (snd (beginLuminosityBlock s g))
  = (Ok tt, snd (beginLuminosityBlock s g))
  /\ (ESWatcher.cacheId_ (parameterWatcher_ g) <> cacheIdentifier s ->
      SimBeamSpotObjects.isGaussian (getHandle s) = true ->
      throws (fst (beginLuminosityBlock s g)) "Configuration"
      /\ fst (beginLuminosityBlock s (snd (beginLuminosityBlock s g)))
         = Ok tt
      /\ parameters (snd (beginLuminosityBlock s
                            (snd (beginLuminosityBlock s g))))
         = parameters g).
Proof.
  intros Hdb Hk. unfold beginLuminosityBlock.
  destruct (update_remembers_key g s Hdb) as [_ Hkey].
  split.
  - apply update_same_key. rewrite Hkey, Hk. reflexivity.
  - intros Hne Hg.
    rewrite (update_same_key (snd (update s g)) s Hkey). cbn [fst snd].
    destruct (update_pulled_gaussian g s Hdb Hne Hg) as [e [Hc Hu]].
    rewrite Hu. cbn [fst snd throws]. repeat split. exact Hc.
Qed.

Lemma beginLuminosityBlock_twice_witness :
  let g := mkGenerator true 1 2 3 5.3 55 5.03e-8 0
                       TMatrix.identity ESWatcher.init in
  let s := mkEventSetup 7 (SimBeamSpotObjects.mk true 9 9 9 9 9 9 9 9 9) in
  let s' := mkEventSetup 7 (SimBeamSpotObjects.mk false 8 8 8 8 8 8 8 8 8) in
  beginLuminosityBlock s' (snd (beginLuminosityBlock s g))
  = (Ok tt, snd (beginLuminosityBlock s g))
  /\ (ESWatcher.cacheId_ (parameterWatcher_ g) <> cacheIdentifier s ->
      SimBeamSpotObjects.isGaussian (getHandle s) = true ->
      throws (fst (beginLuminosityBlock s g)) "Configuration"
      /\ fst (beginLuminosityBlock s (snd (beginLuminosityBlock s g)))
         = Ok tt
      /\ parameters (snd (beginLuminosityBlock s
                            (snd (beginLuminosityBlock s g))))
         = parameters g).
Proof.
  intros g s s'.
  apply (beginLuminosityBlock_twice g s s'); reflexivity.
Defined.

(** What one call does to a statically configured generator: at most
    [fSigmaZ] changes, and only to a non-negative value. *)
Lemma call_static (c : Call) (g : BetafuncEvtVtxGenerator) :
  readDB_ g = false ->
  snd (call c g) = g
  \/ exists s : R, s >= 0 /\ snd (call c g) = set_fSigmaZ g s.
Proof.
  intros H. destruct c as [s | s | s]; cbn [call].
  - left. unfold beginLuminosityBlock. rewrite (update_static g s H).
    reflexivity.
  - left. rewrite (update_static g s H). reflexivity.
  - unfold sigmaZ, assign, throw. destruct (Rge_dec s 0) as [Hs | Hs].
    + right. exists s. split; [exact Hs | reflexivity].
    + left. reflexivity.
Qed.

(** X16.  A statically configured generator keeps its configuration for
    life: after any sequence of [beginLuminosityBlock], [update] and
    [sigmaZ] calls, returned or thrown, it is still in static mode with
    the same position, optics, time offset and boost matrix, and a
    [fSigmaZ] that started non-negative is still non-negative. *)
Theorem static_configuration_is_kept
  (calls : list Call) (g : BetafuncEvtVtxGenerator) :
  readDB_ g = false -> fSigmaZ g >= 0 ->
  let g' := after calls g in
  readDB_ g' = false
  /\ fX0 g' = fX0 g /\ fY0 g' = fY0 g /\ fZ0 g' = fZ0 g
  /\ fbetastar g' = fbetastar g /\ femittance g' = femittance g
  /\ fTimeOffset g' = fTimeOffset g
  /\ GetInvLorentzBoost g' = GetInvLorentzBoost g
  /\ fSigmaZ g' >= 0.
Proof.
  revert g. induction calls as [|c rest IH]; intros g Hdb Hs.
  - cbn [after]. repeat split; try reflexivity; assumption.
  - cbn [after].
    destruct (call_static c g Hdb) as [E | [s [Hs' E]]]; rewrite E.
    + apply IH; assumption.
    + specialize (IH (set_fSigmaZ g s) Hdb Hs'). cbv zeta in IH.
      exact IH.
Qed.

Lemma static_configuration_is_kept_witness :
  let g := mkGenerator false 1 2 3 5.3 55 5.03e-8 0
                       TMatrix.identity ESWatcher.init in
  let s := mkEventSetup 7 (SimBeamSpotObjects.mk false 9 9 9 9 9 9 9 9 9) in
  let g' := after (Call_sigmaZ 2 :: Call_beginLuminosityBlock s
                   :: Call_sigmaZ (-1) :: Call_update s :: nil) g in
  readDB_ g' = false
  /\ fX0 g' = fX0 g /\ fY0 g' = fY0 g /\ fZ0 g' = fZ0 g
  /\ fbetastar g' = fbetastar g /\ femittance g' = femittance g
  /\ fTimeOffset g' = fTimeOffset g
  /\ GetInvLorentzBoost g' = GetInvLorentzBoost g
  /\ fSigmaZ g' >= 0.
Proof.
  intros g s.
  apply (static_configuration_is_kept
           (Call_sigmaZ 2 :: Call_beginLuminosityBlock s
            :: Call_sigmaZ (-1) :: Call_update s :: nil) g).
  - reflexivity.
  - simpl. lra.
Defined.

(** X17.  The last accepted width wins: an accepted [sigmaZ(s2)] ends the
    same way and leaves the same generator whether or not a [sigmaZ(s1)]
    came before it, accepted or rejected, and [fSigmaZ] is then [s2]. *)
Theorem sigmaZ_last_write_wins (s1 s2 : R) (g : BetafuncEvtVtxGenerator) :
  s2 >= 0 ->
  sigmaZ s2 (snd (sigmaZ s1 g)) = sigmaZ s2 g
  /\ fSigmaZ (snd (sigmaZ s2 g)) = s2.
Proof.
  intros H2. unfold sigmaZ, assign, throw.
  destruct (Rge_dec s2 0) as [_ | Hn]; [|contradiction].
  destruct (Rge_dec s1 0); split; reflexivity.
Qed.

Lemma sigmaZ_last_write_wins_witness :
  let g := mkGenerator false 1 2 3 5.3 55 5.03e-8 0
                       TMatrix.identity ESWatcher.init in
  sigmaZ 2 (snd (sigmaZ (-1) g)) = sigmaZ 2 g
  /\ fSigmaZ (snd (sigmaZ 2 g)) = 2.
Proof.
  intros g.
  apply (sigmaZ_last_write_wins (-1) 2 g). lra.
Defined.

(** ** The boost as a Lorentz transformation *)

(** Bring in the two Pythagorean identities and forget where the four
    numbers come from. *)
Ltac trig_atoms alpha phi :=
  let Ha := fresh "Ha" in
  let Hp := fresh "Hp" in
  pose proof (sin2_cos2 phi) as Hp; unfold Rsqr in Hp;
  pose proof (sin2_cos2 alpha) as Ha; unfold Rsqr in Ha;
  unfold tan in *;
  generalize dependent (sin phi); generalize dependent (cos phi);
  generalize dependent (sin alpha); generalize dependent (cos alpha).

(** Decide a polynomial identity in the four atoms, using the squares. *)
Ltac trig_ring sa ca Ha sp cp Hp :=
  let Ea := fresh "Ea" in
  let Ep := fresh "Ep" in
  assert (Ea : sa ^ 2 = 1 - ca ^ 2) by lra;
  assert (Ep : sp ^ 2 = 1 - cp ^ 2) by lra;
  try replace (sa ^ 3) with (sa * sa ^ 2) by ring;
  try replace (sp ^ 3) with (sp * sp ^ 2) by ring;
  try replace (sa ^ 4) with ((sa ^ 2) ^ 2) by ring;
  try replace (sp ^ 4) with ((sp ^ 2) ^ 2) by ring;
  rewrite ?Ea, ?Ep; ring.

(** The closed form of the inverse, multiplied from the left. *)
Lemma boost_closed_form_left (alpha phi : R) :
  cos phi <> 0 ->
  mmul (mkM (mkRow (1 / cos phi) (cos alpha * tan phi) 0
                   (sin alpha * tan phi))
            (mkRow (cos alpha * sin phi) 1 (- cos alpha * sin phi) 0)
            (mkRow (tan phi * sin phi) (cos alpha * tan phi) (cos phi)
                   (sin alpha * tan phi))
            (mkRow (sin alpha * sin phi) 0 (- sin alpha * sin phi) 1))
       (tmpboost alpha phi)
  = identity.
Proof.
  intros Hc. rewrite tmpboost_entries.
  trig_atoms alpha phi. intros ca sa Ha cp Hc sp Hp.
  unfold mmul, identity, build, mget; simpl.
  f_equal; (f_equal; field_simplify_eq; try exact Hc;
            trig_ring sa ca Ha sp cp Hp).
Qed.

Lemma Invert_tmpboost (alpha phi : R) :
  cos phi <> 0 ->
  Invert (tmpboost alpha phi)
  = mkM (mkRow (1 / cos phi) (cos alpha * tan phi) 0 (sin alpha * tan phi))
        (mkRow (cos alpha * sin phi) 1 (- cos alpha * sin phi) 0)
        (mkRow (tan phi * sin phi) (cos alpha * tan phi) (cos phi)
               (sin alpha * tan phi))
        (mkRow (sin alpha * sin phi) 0 (- sin alpha * sin phi) 1).
Proof.
  intros Hc.
  apply (inverse_unique _ (tmpboost alpha phi)).
  - apply boost_closed_form_left, Hc.
  - apply Invert_right. rewrite det_tmpboost by exact Hc. lra.
Qed.

Lemma mapply_mmul (a b : TMatrixD) (v : Row) :
  mapply (mmul a b) v = mapply a (mapply b v).
Proof.
  entries a; entries b. destruct v as [t x y z].
  unfold mapply, mmul, build, mget; simpl. f_equal; ring.
Qed.

Lemma mapply_identity (v : Row) : mapply identity v = v.
Proof.
  destruct v as [t x y z].
  unfold mapply, identity, build, mget; simpl. f_equal; ring.
Qed.

(** X18.  For [cos phi <> 0] the matrix [GetInvLorentzBoost] hands out
    after [setBoost(alpha, phi)] has the closed form below (it is the
    matrix [setBoost] fills in, transposed, with the signs of the
    time-space entries flipped). *)
Theorem setBoost_closed_form
  (alpha phi : R) (g : BetafuncEvtVtxGenerator) :
  cos phi <> 0 ->
  GetInvLorentzBoost (snd (setBoost alpha phi g))
  = mkM (mkRow (1 / cos phi) (cos alpha * tan phi) 0 (sin alpha * tan phi))
        (mkRow (cos alpha * sin phi) 1 (- cos alpha * sin phi) 0)
        (mkRow (tan phi * sin phi) (cos alpha * tan phi) (cos phi)
               (sin alpha * tan phi))
        (mkRow (sin alpha * sin phi) 0 (- sin alpha * sin phi) 1).
Proof.
  intros Hc. unfold GetInvLorentzBoost, setBoost, assign, set_boost_.
  cbn [snd boost_]. apply Invert_tmpboost, Hc.
Qed.

Lemma setBoost_closed_form_witness :
  GetInvLorentzBoost
    (snd (setBoost 1 0 (mkGenerator false 0 0 0 5.3 55 5.03e-8 0
                                    TMatrix.zero ESWatcher.init)))
  = mkM (mkRow (1 / cos 0) (cos 1 * tan 0) 0 (sin 1 * tan 0))
        (mkRow (cos 1 * sin 0) 1 (- cos 1 * sin 0) 0)
        (mkRow (tan 0 * sin 0) (cos 1 * tan 0) (cos 0) (sin 1 * tan 0))
        (mkRow (sin 1 * sin 0) 0 (- sin 1 * sin 0) 1).
Proof.
  apply (setBoost_closed_form 1 0). rewrite cos_0. lra.
Defined.

(** X19.  For [cos phi <> 0] both the matrix [setBoost] fills in and the
    boost matrix it stores have determinant one. *)
Theorem setBoost_unimodular
  (alpha phi : R) (g : BetafuncEvtVtxGenerator) :
  cos phi <> 0 ->
  det (tmpboost alpha phi) = 1
  /\ det (GetInvLorentzBoost (snd (setBoost alpha phi g))) = 1.
Proof.
  intros Hc.
  pose proof (det_tmpboost alpha phi Hc) as Hd.
  split; [exact Hd|].
  unfold GetInvLorentzBoost, setBoost, assign, set_boost_. cbn [snd boost_].
  assert (P : det (mmul (tmpboost alpha phi) (Invert (tmpboost alpha phi)))
              = 1).
  { rewrite Invert_right by (rewrite Hd; lra). apply det_identity. }
  rewrite det_mmul, Hd in P. lra.
Qed.

Lemma setBoost_unimodular_witness :
  det (tmpboost 1 0) = 1
  /\ det (GetInvLorentzBoost
            (snd (setBoost 1 0 (mkGenerator false 0 0 0 5.3 55 5.03e-8 0
                                            TMatrix.zero ESWatcher.init))))
     = 1.
Proof.
  apply (setBoost_unimodular 1 0). rewrite cos_0. lra.
Defined.

(** The matrix [setBoost] fills in keeps the Minkowski interval. *)
Lemma tmpboost_interval (alpha phi : R) (v : Row) :
  cos phi <> 0 -> interval (mapply (tmpboost alpha phi) v) = interval v.
Proof.
  intros Hc. rewrite tmpboost_entries. destruct v as [t x y z].
  trig_atoms alpha phi. intros ca sa Ha cp Hc sp Hp.
  unfold interval, mapply, mget; simpl.
  field_simplify_eq; try exact Hc.
  trig_ring sa ca Ha sp cp Hp.
Qed.

(** X20.  For [cos phi <> 0] the stored boost is a Lorentz transformation:
    applied to any four-vector (component 0 time-like) it keeps the
    Minkowski interval [t^2 - x^2 - y^2 - z^2], and so does the matrix
    [setBoost] fills in before inverting. *)
Theorem setBoost_keeps_interval
  (alpha phi : R) (g : BetafuncEvtVtxGenerator) (v : Row) :
  cos phi <> 0 ->
  interval (mapply (GetInvLorentzBoost (snd (setBoost alpha phi g))) v)
  = interval v
  /\ interval (mapply (tmpboost alpha phi) v) = interval v.
Proof.
  intros Hc. split; [|apply tmpboost_interval, Hc].
  unfold GetInvLorentzBoost, setBoost, assign, set_boost_. cbn [snd boost_].
  rewrite <- (tmpboost_interval alpha phi
                (mapply (Invert (tmpboost alpha phi)) v) Hc).
  rewrite <- mapply_mmul, Invert_right, mapply_identity.
  - reflexivity.
  - rewrite det_tmpboost by exact Hc. lra.
Qed.

Lemma setBoost_keeps_interval_witness :
  let g := mkGenerator false 0 0 0 5.3 55 5.03e-8 0
                       TMatrix.zero ESWatcher.init in
  interval (mapply (GetInvLorentzBoost (snd (setBoost 1 0 g)))
                   (mkRow 5 1 2 3))
  = interval (mkRow 5 1 2 3)
  /\ interval (mapply (tmpboost 1 0) (mkRow 5 1 2 3))
     = interval (mkRow 5 1 2 3).
Proof.
  intros g.
  apply (setBoost_keeps_interval 1 0 g (mkRow 5 1 2 3)).
  rewrite cos_0. lra.
Defined.

(** X21.  For [cos phi <> 0] the stored boost undoes the matrix
    [setBoost] fills in, and the other way round, on every four-vector. *)
Theorem setBoost_round_trip_on_vectors
  (alpha phi : R) (g : BetafuncEvtVtxGenerator) (v : Row) :
  cos phi <> 0 ->
  mapply (GetInvLorentzBoost (snd (setBoost alpha phi g)))
         (mapply (tmpboost alpha phi) v) = v
  /\ mapply (tmpboost alpha phi)
            (mapply (GetInvLorentzBoost (snd (setBoost alpha phi g))) v)
     = v.
Proof.
  intros Hc.
  assert (Hd : det (tmpboost alpha phi) <> 0)
    by (rewrite det_tmpboost by exact Hc; lra).
  unfold GetInvLorentzBoost, setBoost, assign, set_boost_. cbn [snd boost_].
  split; rewrite <- mapply_mmul.
  - rewrite Invert_left by exact Hd. apply mapply_identity.
  - rewrite Invert_right by exact Hd. apply mapply_identity.
Qed.

Lemma setBoost_round_trip_on_vectors_witness :
  let g := mkGenerator false 0 0 0 5.3 55 5.03e-8 0
                       TMatrix.zero ESWatcher.init in
  mapply (GetInvLorentzBoost (snd (setBoost 1 0 g)))
         (mapply (tmpboost 1 0) (mkRow 5 1 2 3)) = mkRow 5 1 2 3
  /\ mapply (tmpboost 1 0)
            (mapply (GetInvLorentzBoost (snd (setBoost 1 0 g)))
                    (mkRow 5 1 2 3))
     = mkRow 5 1 2 3.
Proof.
  intros g.
  apply (setBoost_round_trip_on_vectors 1 0 g (mkRow 5 1 2 3)).
  rewrite cos_0. lra.
Defined.

(** X22.  Without a crossing angle there is no boost: for [phi = 0] the
    stored matrix is the identity whatever [alpha] is. *)
Theorem setBoost_no_crossing_angle
  (alpha : R) (g : BetafuncEvtVtxGenerator) :
  tmpboost alpha 0 = identity
  /\ GetInvLorentzBoost (snd (setBoost alpha 0 g)) = identity.
Proof.
  assert (E : tmpboost alpha 0 = identity).
  { rewrite tmpboost_entries, sin_0, cos_0, tan_0.
    by_entries (try field; lra). }
  split; [exact E|].
  unfold GetInvLorentzBoost, setBoost, assign, set_boost_. cbn [snd boost_].
  rewrite E. apply Invert_identity.
Qed.

(** X23.  The boost depends on the angles through their sines, cosines and
    tangent alone: turning the crossing plane by half a turn while
    flipping the sign of the half crossing angle gives the same matrix,
    and so does a full turn of [alpha]. *)
Theorem setBoost_angle_symmetry
  (alpha phi : R) (g : BetafuncEvtVtxGenerator) :
  snd (setBoost (alpha + PI) (- phi) g) = snd (setBoost alpha phi g)
  /\ snd (setBoost (alpha + 2 * PI) phi g) = snd (setBoost alpha phi g).
Proof.
  assert (E1 : tmpboost (alpha + PI) (- phi) = tmpboost alpha phi).
  { rewrite !tmpboost_entries.
    rewrite neg_cos, neg_sin, cos_neg, sin_neg, tan_neg.
    by_entries ring. }
  assert (E2 : tmpboost (alpha + 2 * PI) phi = tmpboost alpha phi).
  { rewrite !tmpboost_entries.
    rewrite cos_plus, sin_plus, cos_2PI, sin_2PI.
    by_entries ring. }
  unfold setBoost, assign. cbn [snd].
  rewrite E1, E2. split; reflexivity.
Qed.
